(** * ExpenseAI: bank-statement import, dashboard handlers, classifier and
      savings ledger

    A shallow embedding of the TypeScript sources:
    - [services/database.ts]  ([parseCSV], [bankRecordToExpense], the
      Firestore calls),
    - [components/CSVUpload.tsx] ([handleFileSelect]),
    - [pages/Index.tsx] ([handleAddExpense], [handleDeleteExpense]),
    - [components/dashboard/ExpenseList.tsx] (the click guard).

    The handlers call into [services/ai.ts]; they are stated over arbitrary
    implementations of its functions, and the classifier and the savings
    ledger are modelled from the written specification in modules of their
    own. *)

From Stdlib Require Import ZArith QArith Qabs Lqa String Ascii List Bool Lia.
From stdpp Require Import gmap strings list fin_maps pretty.

Local Open Scope string_scope.
Local Open Scope list_scope.

(** ** JavaScript strings

    Strings are sequences of 8-bit characters; the whitespace and case
    tables below are the ASCII part of the ECMAScript ones. *)
Module Js.

Definition isWhiteSpace (c : ascii) : bool :=
  let n := N_of_ascii c in
  ((9 <=? n) && (n <=? 13))%N || (n =? 32)%N.

Definition isDigit (c : ascii) : bool :=
  let n := N_of_ascii c in ((48 <=? n) && (n <=? 57))%N.

Definition lowerChar (c : ascii) : ascii :=
  let n := N_of_ascii c in
  if ((65 <=? n) && (n <=? 90))%N then ascii_of_N (n + 32) else c.

(** [String.prototype.toLowerCase] *)
Fixpoint toLowerCase (s : string) : string :=
  match s with
  | EmptyString => EmptyString
  | String c s' => String (lowerChar c) (toLowerCase s')
  end.

Fixpoint trimStart (s : string) : string :=
  match s with
  | EmptyString => EmptyString
  | String c s' => if isWhiteSpace c then trimStart s' else s
  end.

Fixpoint trimEnd (s : string) : string :=
  match s with
  | EmptyString => EmptyString
  | String c s' =>
      match trimEnd s' with
      | EmptyString => if isWhiteSpace c then EmptyString else String c EmptyString
      | t => String c t
      end
  end.

(** [String.prototype.trim] *)
Definition trim (s : string) : string := trimEnd (trimStart s).

(** [s.split(sep)] for a one-character separator: never the empty list. *)
Fixpoint split (sep : ascii) (s : string) : list string :=
  match s with
  | EmptyString => [EmptyString]
  | String c s' =>
      if Ascii.eqb c sep then EmptyString :: split sep s'
      else match split sep s' with
           | [] => [String c EmptyString]
           | w :: ws => String c w :: ws
           end
  end.

(** [hay.includes(needle)] *)
Fixpoint includes (hay needle : string) : bool :=
  String.prefix needle hay ||
  match hay with
  | EmptyString => false
  | String _ hay' => includes hay' needle
  end.

(** A string used as a condition: only the empty string is falsy. *)
Definition truthy (s : string) : bool :=
  match s with EmptyString => false | _ => true end.

(** ** JavaScript numbers

    The finite values are exact rationals and the special values are kept.
    The rounding of IEEE doubles is left out: a sum or a literal that a
    double cannot hold exactly is rounded in the code, and one beyond the
    range of doubles is [Infinity] there, while here it stays the exact
    finite value. *)
Inductive number : Type :=
  | NaN
  | Infinity (negative : bool)
  | Finite (q : Q).

Definition isNaN (x : number) : bool :=
  match x with NaN => true | _ => false end.

Definition Math_abs (x : number) : number :=
  match x with
  | NaN => NaN
  | Infinity _ => Infinity false
  | Finite q => Finite (Qabs q)
  end.

Definition neg (x : number) : number :=
  match x with
  | NaN => NaN
  | Infinity b => Infinity (negb b)
  | Finite q => Finite (- q)
  end.

(** [a + b] *)
Definition add (a b : number) : number :=
  match a, b with
  | NaN, _ | _, NaN => NaN
  | Infinity s, Infinity t => if Bool.eqb s t then Infinity s else NaN
  | Infinity s, Finite _ | Finite _, Infinity s => Infinity s
  | Finite p, Finite q => Finite (p + q)
  end.

(** [a - b] *)
Definition sub (a b : number) : number := add a (neg b).

(** [a < b]; false as soon as one side is [NaN]. *)
Definition lt (a b : number) : bool :=
  match a, b with
  | NaN, _ | _, NaN => false
  | Infinity s, Infinity t => s && negb t
  | Infinity s, Finite _ => s
  | Finite _, Infinity t => negb t
  | Finite p, Finite q => match (p ?= q)%Q with Lt => true | _ => false end
  end.

(** [a <= b] *)
Definition le (a b : number) : bool :=
  match a, b with
  | NaN, _ | _, NaN => false
  | Infinity s, Infinity t => s || negb t
  | Infinity s, Finite _ => s
  | Finite _, Infinity t => negb t
  | Finite p, Finite q => match (p ?= q)%Q with Gt => false | _ => true end
  end.

(** [a > b] *)
Definition gt (a b : number) : bool := lt b a.

(** [Math.max(a, b)] *)
Definition Math_max (a b : number) : number :=
  match a, b with
  | NaN, _ | _, NaN => NaN
  | _, _ => if lt a b then b else a
  end.

Definition ofZ (z : Z) : number := Finite (inject_Z z).

(** *** [parseFloat]

    The longest prefix of the input, after leading whitespace, that is a
    [StrDecimalLiteral]: an optional sign, then [Infinity], or digits with
    an optional fraction and an optional exponent. No such prefix: [NaN]. *)
Fixpoint takeDigits (s : string) : list N * string :=
  match s with
  | String c s' =>
      if isDigit c then
        let '(ds, rest) := takeDigits s' in
        ((N_of_ascii c - 48)%N :: ds, rest)
      else ([], s)
  | EmptyString => ([], EmptyString)
  end.

Definition digitsValue (ds : list N) : Z :=
  foldl (fun acc d => (10 * acc + Z.of_N d)%Z) 0%Z ds.

(** The exponent part [e], [e+], [e-] followed by at least one digit;
    anything else is not part of the literal. *)
Definition takeExponent (s : string) : Z :=
  match s with
  | String c s' =>
      if Ascii.eqb (lowerChar c) "e"%char then
        match s' with
        | String "+"%char s'' =>
            match takeDigits s'' with
            | ([], _) => 0%Z
            | (ds, _) => digitsValue ds
            end
        | String "-"%char s'' =>
            match takeDigits s'' with
            | ([], _) => 0%Z
            | (ds, _) => (- digitsValue ds)%Z
            end
        | _ =>
            match takeDigits s' with
            | ([], _) => 0%Z
            | (ds, _) => digitsValue ds
            end
        end
      else 0%Z
  | EmptyString => 0%Z
  end.

Definition scale10 (m : Z) (e : Z) : Q :=
  match e with
  | Z0 => inject_Z m
  | Zpos p => inject_Z (m * Z.pow_pos 10 p)
  | Zneg p => Qmake m (Pos.pow 10 p)
  end.

(** The unsigned literal at the head of [s], if there is one. *)
Definition parseUnsigned (s : string) : number :=
  if String.prefix "Infinity" s then Infinity false
  else
    let '(ip, rest) := takeDigits s in
    match rest with
    | String "."%char rest' =>
        let '(fp, rest'') := takeDigits rest' in
        match ip, fp with
        | [], [] => NaN
        | _, _ =>
            let m := digitsValue (ip ++ fp) in
            let e := takeExponent rest'' in
            Finite (scale10 m (e - Z.of_nat (length fp)))
        end
    | _ =>
        match ip with
        | [] => NaN
        | _ => Finite (scale10 (digitsValue ip) (takeExponent rest))
        end
    end.

Definition parseFloat (s : string) : number :=
  match trimStart s with
  | String "-"%char s' => neg (parseUnsigned s')
  | String "+"%char s' => parseUnsigned s'
  | s' => parseUnsigned s'
  end.

End Js.

(** ** Exceptions

    A call either throws [new Error(message)] or returns a value. *)
Inductive outcome (A : Type) : Type :=
  | Throw (message : string)
  | Return (value : A).
Arguments Throw {A} message.
Arguments Return {A} value.

(** ** Dates

    A [Date] object is either the invalid date (its [getTime()] is [NaN])
    or a calendar date; [getMonth] counts from 0. Only the fields the code
    reads are kept. *)
Inductive Date : Type :=
  | InvalidDate
  | DateOf (fullYear month day : Z).

Definition validDate (d : Date) : bool :=
  match d with InvalidDate => false | DateOf _ _ _ => true end.

(** [a.getFullYear() === b.getFullYear() && a.getMonth() === b.getMonth()];
    the getters of an invalid date return [NaN], which equals nothing. *)
Definition sameMonth (a b : Date) : bool :=
  match a, b with
  | DateOf y1 m1 _, DateOf y2 m2 _ => (y1 =? y2)%Z && (m1 =? m2)%Z
  | _, _ => false
  end.

(** ** services/database.ts: the CSV decoder *)
Module Csv.

Inductive RecordType : Type := debit | credit.

Record BankRecord : Type := mkBankRecord {
  date : string;
  description : string;
  amount : Js.number;
  type : RecordType
}.

Definition isDebit (r : BankRecord) : bool :=
  match type r with debit => true | credit => false end.

Definition requiredHeaders : list string :=
  ["date"; "description"; "amount"; "type"].

(** The messages of the errors [parseCSV] throws. *)
Definition msgTooShort : string :=
  "CSV file must have at least a header row and one data row".
Definition msgMissingColumn (required : string) : string :=
  "CSV must contain column: " +:+ required.
Definition msgColumns (row : nat) : string :=
  "Row " +:+ pretty row +:+ " has incorrect number of columns".
Definition msgDate (row : nat) (cell : string) : string :=
  "Invalid date format in row " +:+ pretty row +:+ ": " +:+ cell.
Definition msgAmount (row : nat) (cell : string) : string :=
  "Invalid amount in row " +:+ pretty row +:+ ": " +:+ cell.
Definition msgType (row : nat) (cell : string) : string :=
  "Invalid type in row " +:+ pretty row +:+ ": " +:+ cell
  +:+ ". Must be 'debit' or 'credit'".

(** [csvContent.split('\n').filter(line => line.trim())] *)
Definition nonBlankLines (csvContent : string) : list string :=
  List.filter (fun line => Js.truthy (Js.trim line))
              (Js.split "010"%char csvContent).

(** [lines[0].split(',').map(h => h.trim().toLowerCase())] *)
Definition headerNames (line : string) : list string :=
  List.map (fun h => Js.toLowerCase (Js.trim h)) (Js.split ","%char line).

(** The first required column that [headers] does not include. *)
Definition missingHeader (headers : list string) : option string :=
  List.find (fun required => negb (bool_decide (required ∈ headers)))
            requiredHeaders.

(** The name under which every object inherits an accessor: assigning a
    string to it reaches the inherited setter, which ignores a value that is
    not an object, so no property is made. *)
Definition protoKey : string := "__proto__".

(** [record[header] = value] on the object built for a row. *)
Definition assign (record : gmap string string) (hv : string * string)
  : gmap string string :=
  if String.eqb hv.1 protoKey then record else <[hv.1 := hv.2]> record.

(** [headers.forEach((header, index) => record[header] = values[index])] on
    a fresh object: a later column of the same name overwrites, and a column
    named [__proto__] leaves no property. The map holds the own properties
    of the object; the decoder reads [date], [description], [amount] and
    [type], which are never inherited. *)
Definition buildRecord (headers values : list string) : gmap string string :=
  foldl assign ∅ (zip headers values).

Section Decoder.

(** [new Date(text)]: outside the ISO formats the reading of a date string
    is left to the host, so the constructor is a parameter. *)
Variable newDate : string -> Date.

(** The body of the loop over the data rows, for [lines[i]]. *)
Definition parseRow (headers : list string) (i : nat) (line : string)
  : outcome BankRecord :=
  let values := List.map Js.trim (Js.split ","%char line) in
  if negb (length values =? length headers)%nat then
    Throw (msgColumns (i + 1))
  else
    let record := buildRecord headers values in
    if negb (validDate (newDate (record !!! "date"))) then
      Throw (msgDate (i + 1) (record !!! "date"))
    else
      let amount := Js.parseFloat (record !!! "amount") in
      if Js.isNaN amount then
        Throw (msgAmount (i + 1) (record !!! "amount"))
      else
        let type := Js.toLowerCase (record !!! "type") in
        if String.eqb type "debit" then
          Return (mkBankRecord (record !!! "date") (record !!! "description")
                               (Js.Math_abs amount) debit)
        else if String.eqb type "credit" then
          Return (mkBankRecord (record !!! "date") (record !!! "description")
                               (Js.Math_abs amount) credit)
        else Throw (msgType (i + 1) (record !!! "type")).

(** [for (let i = ...; i < lines.length; i++) { ...; records.push(...) }],
    entered at index [i] with [rest] the lines from [i] on. *)
Fixpoint parseRows (headers : list string) (i : nat) (rest : list string)
    (records : list BankRecord) : outcome (list BankRecord) :=
  match rest with
  | [] => Return records
  | line :: rest' =>
      match parseRow headers i line with
      | Throw e => Throw e
      | Return r => parseRows headers (S i) rest' (records ++ [r])
      end
  end.

Definition parseCSV (csvContent : string) : outcome (list BankRecord) :=
  let lines := nonBlankLines csvContent in
  if (length lines <? 2)%nat then Throw msgTooShort
  else
    match lines with
    | [] => Throw msgTooShort
    | header :: rows =>
        let headers := headerNames header in
        match missingHeader headers with
        | Some required => Throw (msgMissingColumn required)
        | None => parseRows headers 1 rows []
        end
    end.

End Decoder.

(** A host that reads exactly the date-only ISO form [YYYY-MM-DD], the one
    form every host has to accept; it runs the examples. *)
Definition isoDate (s : string) : Date :=
  match Js.takeDigits s with
  | ([y1; y2; y3; y4], String "-"%char s1) =>
      match Js.takeDigits s1 with
      | ([m1; m2], String "-"%char s2) =>
          match Js.takeDigits s2 with
          | ([d1; d2], EmptyString) =>
              let y := Js.digitsValue [y1; y2; y3; y4] in
              let m := Js.digitsValue [m1; m2] in
              let d := Js.digitsValue [d1; d2] in
              if ((1 <=? m) && (m <=? 12) && (1 <=? d) && (d <=? 31))%Z
              then DateOf y (m - 1) d else InvalidDate
          | _ => InvalidDate
          end
      | _ => InvalidDate
      end
  | _ => InvalidDate
  end.

End Csv.

(** ** lib/mockData: the types the sources share

    The declarations themselves are not among the sources; the fields are
    the ones the code reads and writes. *)
Inductive Category : Type :=
  | food | transport | shopping | entertainment | bills
  | subscriptions | groceries | health | other.

Inductive Source : Type := MANUAL | AUTO.

(** [id] is absent ([undefined]) until the store has assigned one. *)
Record Expense : Type := mkExpense {
  id : option string;
  description : string;
  amount : Js.number;
  category : Category;
  date : Date;
  isImpulse : bool;
  source : Source
}.

Definition withId (e : Expense) (i : option string) : Expense :=
  mkExpense i (description e) (amount e) (category e) (date e)
            (isImpulse e) (source e).

Definition withImpulse (e : Expense) (b : bool) : Expense :=
  mkExpense (id e) (description e) (amount e) (category e) (date e)
            b (source e).

Global Instance Category_eq_dec : EqDecision Category.
Proof. solve_decision. Defined.

Global Instance Source_eq_dec : EqDecision Source.
Proof. solve_decision. Defined.

Inductive Severity : Type := good | warning | bad.

Global Instance Severity_eq_dec : EqDecision Severity.
Proof. solve_decision. Defined.

Module Alert.
Record HabitAlert : Type := mkHabitAlert {
  id : string;
  title : string;
  description : string;
  suggestion : string;
  severity : Severity;
  savingPotential : Js.number
}.
End Alert.
Abbreviation HabitAlert := Alert.HabitAlert.

(** The result of [classifyExpense]: [{ flags: { impulse, habit } }]. *)
Record Flags : Type := mkFlags { impulse : bool; habit : bool }.

Record SavingsSummary : Type := mkSummary {
  total : Js.number;
  prevented : Js.number;
  reduced : Js.number;
  optimized : Js.number
}.

(** ** services/database.ts: from bank records to expenses *)
Module Database.

Section Convert.
Variable newDate : string -> Date.

Definition bankRecordToExpense (record : Csv.BankRecord) : Expense :=
  let description := Js.toLowerCase (Csv.description record) in
  let has := Js.includes description in
  let category :=
    if has "food" || has "restaurant" || has "cafe" || has "swiggy"
       || has "zomato" then food
    else if has "uber" || has "ola" || has "taxi" || has "bus"
            || has "metro" then transport
    else if has "amazon" || has "flipkart" || has "myntra"
            || has "shopping" then shopping
    else if has "netflix" || has "prime" || has "hotstar"
            || has "movie" then entertainment
    else if has "electricity" || has "water" || has "gas"
            || has "internet" || has "phone" then bills
    else if has "subscription" || has "spotify"
            || has "apple music" then subscriptions
    else if has "grocery" || has "supermarket"
            || has "bigbasket" then groceries
    else if has "hospital" || has "medical" || has "pharmacy" then health
    else other in
  mkExpense None (Csv.description record) (Csv.amount record) category
            (newDate (Csv.date record)) false AUTO.

End Convert.

(** *** The Firestore calls

    The store is reached through the Firebase SDK; what the code relies on
    is gathered in an interface. An operation takes the store, may change
    it, and returns or rejects. *)
Definition Store (DB A : Type) : Type := DB -> outcome A * DB.

Class Firestore (DB : Type) : Type := {
  (** [getAuth().currentUser?.uid] *)
  currentUser : DB -> option string;
  (** [addDoc(collection(db, 'expenses'), data)], returning the new id *)
  addDoc : string -> Expense -> Store DB string;
  (** [doc(expensesRef)]: a reference with a fresh auto-id *)
  autoId : DB -> string * DB;
  (** [batch.commit()] of the writes [batch.set(ref, data)] *)
  commit : string -> list (string * Expense) -> Store DB unit;
  (** [deleteDoc(doc(db, 'expenses', id))] *)
  deleteDoc : string -> Store DB unit
}.

Section Calls.
Context {DB : Type} `{Firestore DB}.

Definition msgNotAuthenticated : string := "User not authenticated".

Definition addExpense (expense : Expense) : Store DB string :=
  fun db =>
    match currentUser db with
    | None => (Throw msgNotAuthenticated, db)
    | Some uid => addDoc uid expense db
    end.

Definition MAX_BATCH : nat := 500.

(** [for (const expense of chunk) { const ref = doc(expensesRef); ... }] *)
Fixpoint chunkRefs (chunk : list Expense) (db : DB)
  : list (string * Expense) * DB :=
  match chunk with
  | [] => ([], db)
  | expense :: chunk' =>
      let '(ref, db1) := autoId db in
      let '(refs, db2) := chunkRefs chunk' db1 in
      ((ref, expense) :: refs, db2)
  end.

(** The loop [for (let i = 0; i < expenses.length; i += MAX_BATCH)], with
    [remaining] the expenses from index [i] on; every round takes at least
    one of them, so [length remaining] rounds are enough. *)
Fixpoint addChunks (rounds : nat) (uid : string) (remaining : list Expense)
    (ids : list string) : Store DB (list string) :=
  fun db =>
    match remaining, rounds with
    | [], _ | _, O => (Return ids, db)
    | _ :: _, S rounds' =>
        let chunk := take MAX_BATCH remaining in
        let '(refs, db1) := chunkRefs chunk db in
        match commit uid refs db1 with
        | (Throw e, db2) => (Throw e, db2)
        | (Return _, db2) =>
            addChunks rounds' uid (drop MAX_BATCH remaining)
                      (ids ++ List.map fst refs) db2
        end
    end.

Definition addExpenses (expenses : list Expense) : Store DB (list string) :=
  fun db =>
    match currentUser db with
    | None => (Throw msgNotAuthenticated, db)
    | Some uid => addChunks (length expenses) uid expenses [] db
    end.

Definition deleteExpense (id : string) : Store DB unit :=
  fun db =>
    match currentUser db with
    | None => (Throw msgNotAuthenticated, db)
    | Some _ => deleteDoc id db
    end.

End Calls.

(** A store kept in memory, for running the examples: documents in
    insertion order, ids drawn from a counter, no call ever rejected. *)
Record MemoryStore : Type := mkMemoryStore {
  user : option string;
  nextId : nat;
  docs : list (string * (string * Expense))
}.

Definition memId (n : nat) : string := "doc" +:+ pretty n.

Global Instance MemoryStore_Firestore : Firestore MemoryStore := {|
  currentUser := user;
  addDoc uid e db :=
    (Return (memId (nextId db)),
     mkMemoryStore (user db) (S (nextId db))
                   (docs db ++ [(memId (nextId db), (uid, e))]));
  autoId db :=
    (memId (nextId db), mkMemoryStore (user db) (S (nextId db)) (docs db));
  commit uid writes db :=
    (Return tt,
     mkMemoryStore (user db) (nextId db)
       (docs db ++ List.map (fun w => (w.1, (uid, w.2))) writes));
  deleteDoc i db :=
    (Return tt,
     mkMemoryStore (user db) (nextId db)
       (List.filter (fun d => negb (String.eqb d.1 i)) (docs db)))
|}.

End Database.

(** ** Notifications

    A toast is kept by its kind and title; the description line, which
    formats amounts for display, is left out. *)
Inductive ToastKind : Type := plainToast | successToast | errorToast.

Record Toast : Type := mkToast { kind : ToastKind; title : string }.

(** ** components/CSVUpload.tsx *)
Module CSVUpload.
Import Database.

Inductive Status : Type := idle | success | error.

Record File : Type := mkFile { name : string; text : string }.

(** The component's own state. *)
Record Component : Type := mkComponent {
  isUploading : bool;
  uploadStatus : Status;
  errorMessage : string
}.

(** What one run of the handler leaves behind: the component's state, the
    toasts shown, the expenses handed to [classifyExpense] (in call order),
    the argument of [onUploadSuccess] if it was called, and whether
    [onComplete] was called. *)
Record Run : Type := mkRun {
  component : Component;
  toasts : list Toast;
  classified : list Expense;
  delivered : option (list Expense);
  completed : bool
}.

Definition msgNoRecords : string := "No valid records found in CSV".
Definition msgNoDebits : string := "No debit transactions found in CSV".
Definition msgNotCsv : string := "Please select a CSV file only.".

(** [name.endsWith(suffix)] *)
Definition endsWith (s suffix : string) : bool :=
  (String.length suffix <=? String.length s)%nat &&
  String.eqb
    (String.substring (String.length s - String.length suffix)
                      (String.length suffix) s)
    suffix.

Section Handler.
Variable newDate : string -> Date.
(** [classifyExpense] of services/ai.ts, of which only [flags] is read. *)
Variable classifyExpense : Expense -> list Expense -> Flags.
Context {DB : Type} `{Firestore DB}.

(** [for (const record of debitRecords) { ... expensesToAdd.push(expense) }]:
    the expenses to add, and the classifier's inputs in call order. *)
Fixpoint convert (existing : list Expense) (debitRecords : list Csv.BankRecord)
    (expensesToAdd calls : list Expense) : list Expense * list Expense :=
  match debitRecords with
  | [] => (expensesToAdd, calls)
  | record :: rest =>
      let baseExpense := bankRecordToExpense newDate record in
      let flags := classifyExpense baseExpense existing in
      convert existing rest
              (expensesToAdd ++ [withImpulse baseExpense (impulse flags)])
              (calls ++ [baseExpense])
  end.

(** The body of the [try] block: the new expenses or the error thrown,
    together with the classifier's inputs. *)
Definition importFile (csvContent : string) (existing : list Expense) (db : DB)
  : outcome (list Expense) * list Expense * DB :=
  match Csv.parseCSV newDate csvContent with
  | Throw e => (Throw e, [], db)
  | Return bankRecords =>
      if (length bankRecords =? 0)%nat then (Throw msgNoRecords, [], db)
      else
        let debitRecords := List.filter Csv.isDebit bankRecords in
        if (length debitRecords =? 0)%nat then (Throw msgNoDebits, [], db)
        else
          let '(expensesToAdd, calls) := convert existing debitRecords [] [] in
          match addExpenses expensesToAdd db with
          | (Throw e, db') => (Throw e, calls, db')
          | (Return ids, db') =>
              (Return (imap (fun index exp => withId exp (ids !! index))
                            expensesToAdd),
               calls, db')
          end
  end.

Definition handleFileSelect (file : option File)
    (existingExpenses : option (list Expense)) (c : Component) (db : DB)
  : Run * DB :=
  match file with
  | None => (mkRun c [] [] None false, db)
  | Some file =>
      if negb (endsWith (Js.toLowerCase (name file)) ".csv") then
        (mkRun (mkComponent (isUploading c) error msgNotCsv)
               [mkToast errorToast "Invalid file type"] [] None false, db)
      else
        let existing := default [] existingExpenses in
        match importFile (text file) existing db with
        | (Return newExpenses, calls, db') =>
            (mkRun (mkComponent false success "")
                   [mkToast successToast "CSV uploaded successfully"]
                   calls (Some newExpenses) true, db')
        | (Throw message, calls, db') =>
            (mkRun (mkComponent false error message)
                   [mkToast errorToast "Upload failed"]
                   calls None true, db')
        end
  end.

(** The sources hold a second copy of the component, which goes through
    the records once, skips the credits inside the loop, and leaves the
    write to its caller:
    [for (const record of bankRecords) { if (record.type !== 'debit')
    continue; ... }]. *)
Fixpoint convertSinglePass (existing : list Expense)
    (bankRecords : list Csv.BankRecord) (expensesToAdd calls : list Expense)
  : list Expense * list Expense :=
  match bankRecords with
  | [] => (expensesToAdd, calls)
  | record :: rest =>
      if negb (Csv.isDebit record) then
        convertSinglePass existing rest expensesToAdd calls
      else
        let baseExpense := bankRecordToExpense newDate record in
        let flags := classifyExpense baseExpense existing in
        convertSinglePass existing rest
          (expensesToAdd ++ [withImpulse baseExpense (impulse flags)])
          (calls ++ [baseExpense])
  end.

Definition importFileSinglePass (csvContent : string)
    (existing : list Expense) : outcome (list Expense) * list Expense :=
  match Csv.parseCSV newDate csvContent with
  | Throw e => (Throw e, [])
  | Return bankRecords =>
      if (length bankRecords =? 0)%nat then (Throw msgNoRecords, [])
      else
        let '(expensesToAdd, calls) :=
          convertSinglePass existing bankRecords [] [] in
        if (length expensesToAdd =? 0)%nat then (Throw msgNoDebits, calls)
        else (Return expensesToAdd, calls)
  end.

End Handler.
End CSVUpload.

(** ** components/dashboard/ExpenseList.tsx *)
Module ExpenseList.

(** The click handler of a row: [onDelete(expense.id)] is called only for a
    MANUAL expense, and only once the user has confirmed. The result is the
    id handed to [onDelete], if it is called. *)
Definition onClick (expense : Expense) (hasOnDelete confirmed : bool)
  : option string :=
  if bool_decide (source expense = MANUAL) && hasOnDelete then
    if confirmed then id expense else None
  else None.

End ExpenseList.

(** ** pages/Index.tsx: the dashboard *)
Module Index.
Import Database.

(** The argument of [handleAddExpense]. *)
Module Form.
Record NewExpense : Type := mkNewExpense {
  description : string;
  amount : Js.number;
  category : Category
}.
End Form.
Abbreviation NewExpense := Form.NewExpense.

(** The state the handlers read and set. *)
Record Dashboard : Type := mkDashboard {
  expenses : list Expense;
  alerts : list HabitAlert;
  savedSummary : SavingsSummary;
  applySavings : bool;
  isModalOpen : bool;
  isGlobalLoading : bool;
  toasts : list Toast
}.

Definition setView (s : Dashboard) (es : list Expense) (al : list HabitAlert)
    (sm : SavingsSummary) (t : Toast) : Dashboard :=
  mkDashboard es al sm (applySavings s) (isModalOpen s) false (toasts s ++ [t]).

Definition notify (s : Dashboard) (loading : bool) (ts : list Toast)
  : Dashboard :=
  mkDashboard (expenses s) (alerts s) (savedSummary s) (applySavings s)
              (isModalOpen s) loading (toasts s ++ ts).

Definition closeModal (s : Dashboard) : Dashboard :=
  mkDashboard (expenses s) (alerts s) (savedSummary s) (applySavings s)
              false true (toasts s).

(** [alerts.filter((a) => a.severity === 'bad')] *)
Definition badAlerts (s : Dashboard) : list HabitAlert :=
  List.filter (fun a => bool_decide (Alert.severity a = bad)) (alerts s).

(** The month-to-date total of one category:
    [expenses.filter(...).reduce((s, e) => s + e.amount, 0)]. *)
Definition monthTotal (now : Date) (c : Category) (es : list Expense)
  : Js.number :=
  foldl (fun s e => Js.add s (amount e)) (Js.ofZ 0)
    (List.filter
       (fun e => sameMonth (date e) now
                 && bool_decide (category e = c)) es).

(** What the cap check decides for a new expense. *)
Inductive Verdict : Type :=
  | Blocked
  | Proceed (finalAmount : Js.number) (notice : list Toast).

Section Handlers.
(** The functions of services/ai.ts the dashboard calls. The savings ledger
    lives in the browser's local storage, of contents [Storage]; [now] is
    optional in [reconcileSavingsLedger]. *)
Variable Storage : Type.
Variable classifyExpense : Expense -> list Expense -> Flags.
Variable computeCategoryCap :
  list Expense -> list HabitAlert -> Category -> Date -> option Js.number.
Variable recomputeAlerts : list Expense -> list HabitAlert.
Variable reconcileSavingsLedger :
  string -> list Expense -> option Date -> Storage -> SavingsSummary * Storage.
Context {DB : Type} `{Firestore DB}.

(** [Math.max(0, cap - monthTotal)] *)
Definition remainingUnder (cap : Js.number) (now : Date) (c : Category)
    (es : list Expense) : Js.number :=
  Js.Math_max (Js.ofZ 0) (Js.sub cap (monthTotal now c es)).

(** The [if (applySavings) { ... }] block of [handleAddExpense]. *)
Definition enforceCap (now : Date) (newExpense : NewExpense) (s : Dashboard)
  : Verdict :=
  if applySavings s then
    match computeCategoryCap (expenses s) (badAlerts s)
                             (Form.category newExpense) now with
    | Some cap =>
        let remaining :=
          remainingUnder cap now (Form.category newExpense) (expenses s) in
        if Js.le remaining (Js.ofZ 0) then Blocked
        else if Js.gt (Form.amount newExpense) remaining then
          Proceed remaining [mkToast plainToast "Spending optimized"]
        else Proceed (Form.amount newExpense) []
    | None => Proceed (Form.amount newExpense) []
    end
  else Proceed (Form.amount newExpense) [].

Definition handleAddExpense (userKey : string) (now : Date)
    (newExpense : NewExpense) (s : Dashboard) (ls : Storage) (db : DB)
  : Dashboard * Storage * DB :=
  let s := closeModal s in
  match enforceCap now newExpense s with
  | Blocked =>
      (notify s false [mkToast plainToast "Spending capped"], ls, db)
  | Proceed finalAmount notice =>
      let s := notify s true notice in
      let expenseBase :=
        mkExpense None (Form.description newExpense) finalAmount
                  (Form.category newExpense) now false MANUAL in
      let flags := classifyExpense expenseBase (expenses s) in
      let expenseToAdd := withImpulse expenseBase (impulse flags) in
      match addExpense expenseToAdd db with
      | (Return id0, db') =>
          let newExpenseWithId := withId expenseToAdd (Some id0) in
          let nextExpenses := newExpenseWithId :: expenses s in
          let nextAlerts := recomputeAlerts nextExpenses in
          let '(summary, ls') :=
            reconcileSavingsLedger userKey nextExpenses (Some now) ls in
          (setView s nextExpenses nextAlerts summary
                   (mkToast successToast "Expense added"), ls', db')
      | (Throw _, db') =>
          (notify s false [mkToast errorToast "Failed to add expense"],
           ls, db')
      end
  end.

Definition handleDeleteExpense (userKey : string) (id0 : string)
    (s : Dashboard) (ls : Storage) (db : DB) : Dashboard * Storage * DB :=
  match List.find (fun e => bool_decide (id e = Some id0))
                  (expenses s) with
  | None => (s, ls, db)
  | Some target =>
      if negb (bool_decide (source target = MANUAL)) then (s, ls, db)
      else
        match deleteExpense id0 db with
        | (Return _, db') =>
            let next :=
              List.filter
                (fun e => negb (bool_decide (id e = Some id0)))
                (expenses s) in
            let nextAlerts := recomputeAlerts next in
            let '(summary, ls') :=
              reconcileSavingsLedger userKey next None ls in
            (mkDashboard next nextAlerts summary (applySavings s)
                         (isModalOpen s) (isGlobalLoading s)
                         (toasts s ++ [mkToast plainToast "Expense deleted"]),
             ls', db')
        | (Throw _, db') =>
            (notify s (isGlobalLoading s)
                    [mkToast errorToast "Failed to delete expense"], ls, db')
        end
  end.

Definition handleCSVUploadSuccess (userKey : string)
    (newExpenses : list Expense) (s : Dashboard) (ls : Storage)
  : Dashboard * Storage :=
  let nextExpenses := newExpenses ++ expenses s in
  let nextAlerts := recomputeAlerts nextExpenses in
  let '(summary, ls') :=
    reconcileSavingsLedger userKey nextExpenses None ls in
  (mkDashboard nextExpenses nextAlerts summary (applySavings s)
               (isModalOpen s) false (toasts s), ls').

(** A click on a row of the list, wired to [handleDeleteExpense]. *)
Definition clickRow (userKey : string) (expense : Expense) (confirmed : bool)
    (s : Dashboard) (ls : Storage) (db : DB) : Dashboard * Storage * DB :=
  match ExpenseList.onClick expense true confirmed with
  | Some id0 => handleDeleteExpense userKey id0 s ls db
  | None => (s, ls, db)
  end.

End Handlers.
End Index.

(** ** The classifier (services/ai.ts) *)
Module Classifier.

(** Modelled from the spec: the essential/non-essential table of the
    category model, which services/ai.ts holds. Non-essential are the
    food, shopping and entertainment categories; every other category
    counts as essential. *)
Definition nonEssential (c : Category) : bool :=
  match c with
  | food | shopping | entertainment => true
  | _ => false
  end.

Definition impulseThreshold : Js.number := Js.ofZ 500.
Definition habitThreshold : nat := 4.

(** Modelled from the spec: the count behind the habit rule of
    [classifyExpense] (services/ai.ts). The occurrences of the candidate's
    category within the candidate's calendar month: those recorded in
    [history], and the candidate. *)
Definition occurrences (transaction : Expense) (history : list Expense) : nat :=
  S (length
       (List.filter
          (fun e => bool_decide (category e = category transaction)
                    && sameMonth (date e) (date transaction))
          history)).

(** Modelled from the spec: [classifyExpense] of services/ai.ts, the
    contract [classify(transaction, history) -> { impulse, habit }]. The
    impulse rule: the category is non-essential and the amount exceeds the
    threshold of 500. The habit rule: the category has occurred 4 or more
    times within the calendar month, the candidate included. *)
Definition classify (transaction : Expense) (history : list Expense) : Flags :=
  mkFlags
    (nonEssential (category transaction)
     && Js.gt (amount transaction) impulseThreshold)
    (habitThreshold <=? occurrences transaction history)%nat.

End Classifier.

(** ** The savings ledger (services/ai.ts) *)
Module Ledger.
Local Open Scope Q_scope.

Inductive SavingType : Type := PREVENTED | REDUCED | OPTIMIZED.

(** Modelled from the spec: the types of the persisted ledger of
    services/ai.ts. A calendar period is a year and a month. *)
Definition Period : Type := (Z * Z)%type.

(** The three buckets kept per period. *)
Record Buckets : Type := mkBuckets {
  prevented : Q;
  reduced : Q;
  optimized : Q
}.

Definition noSavings : Buckets := mkBuckets 0 0 0.

Record Summary : Type := mkSummary {
  total : Q;
  summaryPrevented : Q;
  summaryReduced : Q;
  summaryOptimized : Q
}.

(** Modelled from the spec: a transaction as [reconcileSavingsLedger]
    reads it: the committed amount, the amount requested before the cap
    when that was recorded, and the period of its timestamp. *)
Record Transaction : Type := mkTransaction {
  committed : Q;
  requested : option Q;
  occurred : Period
}.

(** Modelled from the spec: the residual [reconcileSavingsLedger] reads
    off a transaction: what was requested and not committed, filed as
    PREVENTED when nothing was committed and as REDUCED when the amount was
    cut down. *)
Definition residual (t : Transaction) : option (SavingType * Q) :=
  match requested t with
  | None => None
  | Some r =>
      if Qeq_bool (committed t) 0 then Some (PREVENTED, r - committed t)
      else Some (REDUCED, r - committed t)
  end.

(** Modelled from the spec: the sum of the residuals of one type among
    the transactions of a period, as [reconcileSavingsLedger] aggregates
    them. *)
Definition residualSum (ty : SavingType) (p : Period)
    (transactions : list Transaction) : Q :=
  foldr
    (fun t acc =>
       if bool_decide (occurred t = p) then
         match residual t, ty with
         | Some (PREVENTED, x), PREVENTED => x + acc
         | Some (REDUCED, x), REDUCED => x + acc
         | _, _ => acc
         end
       else acc)
    0 transactions.

(** Modelled from the spec: the key [reconcileSavingsLedger] stores the
    ledger of a user under; user keys are compared without regard to
    case. *)
Definition storageKey (userKey : string) : string :=
  "savings:" +:+ Js.toLowerCase userKey.

(** Modelled from the spec: the summary [reconcileSavingsLedger]
    returns, the aggregate over all the periods of a user's ledger. *)
Definition summarize (mine : gmap Period Buckets) : Summary :=
  let p := map_fold (fun _ b acc => prevented b + acc) 0 mine in
  let r := map_fold (fun _ b acc => reduced b + acc) 0 mine in
  let o := map_fold (fun _ b acc => optimized b + acc) 0 mine in
  mkSummary (p + r + o) p r o.

(** Modelled from the spec: [reconcileSavingsLedger] of services/ai.ts, the
    contract [reconcile({ userKey, transactions, asOf }) ->
    { summary, updatedLedgerState }]. The persisted ledger maps the key of a
    user to a mapping from periods to bucket triples. Reconciling computes
    the residuals of the as-of period from the current transactions and
    sets the prevented and reduced buckets of that period to these sums
    (nothing is added to what was stored); the optimized bucket, fed by the
    other reduction paths, and the other periods stay as stored. The
    summary is the aggregate over the user's updated ledger. *)
Definition reconcile (userKey : string) (transactions : list Transaction)
    (asOf : Period) (ledger : gmap string (gmap Period Buckets))
  : Summary * gmap string (gmap Period Buckets) :=
  let key := storageKey userKey in
  let mine := default ∅ (ledger !! key) in
  let entry :=
    mkBuckets (residualSum PREVENTED asOf transactions)
              (residualSum REDUCED asOf transactions)
              (optimized (default noSavings (mine !! asOf))) in
  let mine' := <[asOf := entry]> mine in
  (summarize mine', <[key := mine']> ledger).

(** Modelled from the spec: the invariant of the persisted ledger of
    services/ai.ts. The stored ledger of every user holds non-negative
    buckets. *)
Definition nonNegative (ledger : gmap string (gmap Period Buckets)) : Prop :=
  forall key mine p b,
    ledger !! key = Some mine -> mine !! p = Some b ->
    (0 <= prevented b)%Q /\ (0 <= reduced b)%Q /\ (0 <= optimized b)%Q.

(** Modelled from the spec: the evidence the cap enforcement of
    services/ai.ts leaves on a transaction. It only lowers an amount: what
    is committed is not negative and not above what was requested. *)
Definition lowered (t : Transaction) : Prop :=
  match requested t with
  | None => True
  | Some r => (0 <= committed t)%Q /\ (committed t <= r)%Q
  end.

End Ledger.

(** ** What makes a data row invalid

    The four defects the decoder checks for, in the order it checks them,
    stated on the row itself. *)
Module Defects.

Inductive RowDefect : Type := WrongColumns | BadDate | BadAmount | BadType.

Definition cells (line : string) : list string :=
  List.map Js.trim (Js.split ","%char line).

(** The cell of [line] under the column [name]. *)
Definition cell (headers : list string) (line : string) (name : string)
  : string :=
  Csv.buildRecord headers (cells line) !!! name.

Definition readType (text : string) : option Csv.RecordType :=
  if String.eqb (Js.toLowerCase text) "debit" then Some Csv.debit
  else if String.eqb (Js.toLowerCase text) "credit" then Some Csv.credit
  else None.

Definition rowDefect (newDate : string -> Date) (headers : list string)
    (line : string) : option RowDefect :=
  if negb (length (cells line) =? length headers)%nat then Some WrongColumns
  else if negb (validDate (newDate (cell headers line "date")))
  then Some BadDate
  else if Js.isNaN (Js.parseFloat (cell headers line "amount"))
  then Some BadAmount
  else match readType (cell headers line "type") with
       | None => Some BadType
       | Some _ => None
       end.






(** The message for a defect of the row numbered [row]. *)
Definition defectMessage (d : RowDefect) (row : nat) (headers : list string)
    (line : string) : string :=
  match d with
  | WrongColumns => Csv.msgColumns row
  | BadDate => Csv.msgDate row (cell headers line "date")
  | BadAmount => Csv.msgAmount row (cell headers line "amount")
  | BadType => Csv.msgType row (cell headers line "type")
  end.

(** The record a row without defect decodes to. *)
Definition recordOf (headers : list string) (line : string) : Csv.BankRecord :=
  Csv.mkBankRecord (cell headers line "date")
                   (cell headers line "description")
                   (Js.Math_abs (Js.parseFloat (cell headers line "amount")))
                   (default Csv.credit (readType (cell headers line "type"))).

(** A JavaScript number below zero. *)
Definition negative (x : Js.number) : bool := Js.lt x (Js.ofZ 0).


End Defects.

(** The expenses imported from a bank statement. *)
Definition isAuto (e : Expense) : bool := bool_decide (source e = AUTO).

(** * Sample inputs *)

Definition newline : string := String "010"%char EmptyString.


Definition sampleNegative : string :=
  "date,description,amount,type" +:+ newline +:+
  "2024-01-05,Salary,1000,credit" +:+ newline +:+
  "2024-01-06,Swiggy order,-250.50,Debit" +:+ newline.

Definition sampleCreditsOnly : CSVUpload.File :=
  CSVUpload.mkFile "statement.csv"
    ("date,description,amount,type" +:+ newline +:+
     "2024-01-05,Salary,1000,credit" +:+ newline +:+
     "2024-01-09,Refund,40,CREDIT" +:+ newline).

Definition sampleStore : Database.MemoryStore :=
  Database.mkMemoryStore (Some "u1") 0 [].

Definition freshComponent : CSVUpload.Component :=
  CSVUpload.mkComponent false CSVUpload.idle "".

Definition sampleStatement : CSVUpload.File :=
  CSVUpload.mkFile "Statement.CSV" sampleNegative.

Definition zeroSummary : SavingsSummary :=
  mkSummary (Js.ofZ 0) (Js.ofZ 0) (Js.ofZ 0) (Js.ofZ 0).

(** A ledger that keeps every request it receives, in order. *)
Definition loggingLedger (userKey : string) (es : list Expense)
    (now : option Date) (ls : list (string * list Expense))
  : SavingsSummary * list (string * list Expense) :=
  (zeroSummary, ls ++ [(userKey, es)]).

Definition january (day : Z) : Date := DateOf 2024 0 day.

Definition sampleDashboard : Index.Dashboard :=
  Index.mkDashboard
    [mkExpense (Some "a1") "Dinner" (Js.ofZ 450) food (january 3) false MANUAL;
     mkExpense (Some "b2") "Swiggy order" (Js.ofZ 120) food (DateOf 2023 11 30)
               false AUTO]
    [] zeroSummary true false false [].

(** The same dashboard once the month's food spending has reached 530. *)
Definition cappedDashboard : Index.Dashboard :=
  Index.mkDashboard
    (mkExpense (Some "c3") "Brunch" (Js.ofZ 80) food (january 12) false MANUAL
     :: Index.expenses sampleDashboard)
    [] zeroSummary true false false [].

Definition sampleDb : Database.MemoryStore :=
  Database.mkMemoryStore (Some "u1") 7
    [("a1", ("u1", mkExpense None "Dinner" (Js.ofZ 450) food (january 3)
                             false MANUAL));
     ("b2", ("u1", mkExpense None "Swiggy order" (Js.ofZ 120) food
                             (DateOf 2023 11 30) false AUTO))].

(** The cap of the examples: 500 for food, none elsewhere. *)
Definition foodCap (es : list Expense) (al : list HabitAlert) (c : Category)
    (now : Date) : option Js.number :=
  if bool_decide (c = food) then Some (Js.ofZ 500) else None.

Definition coffee (day : Z) : Expense :=
  mkExpense None "Cafe" (Js.Finite 120) food (DateOf 2024 0 day) false MANUAL.

Definition sampleTransactions : list Ledger.Transaction :=
  [Ledger.mkTransaction 50 (Some 100%Q) (2024, 0)%Z;
   Ledger.mkTransaction 450 None (2024, 0)%Z;
   Ledger.mkTransaction 80 (Some 95%Q) (2023, 11)%Z].

(** ** pages/Index.tsx: what the dashboard derives and shows *)
Module IndexView.

(** [expenses.reduce((sum, exp) => sum + exp.amount, 0)] *)
Definition totalSpent (s : Index.Dashboard) : Js.number :=
  foldl (fun sum exp => Js.add sum (amount exp)) (Js.ofZ 0) (Index.expenses s).

(** [expenses.filter(e => e.isImpulse).reduce(...)] *)
Definition impulseSpending (s : Index.Dashboard) : Js.number :=
  foldl (fun sum exp => Js.add sum (amount exp)) (Js.ofZ 0)
        (List.filter isImpulse (Index.expenses s)).

(** [badAlerts.reduce((sum, alert) => sum + alert.savingPotential, 0)] *)
Definition potentialSavings (s : Index.Dashboard) : Js.number :=
  foldl (fun sum alert => Js.add sum (Alert.savingPotential alert)) (Js.ofZ 0)
        (Index.badAlerts s).

(** [Math.max(0, totalSpent - (applySavings ? potentialSavings : 0))] *)
Definition displayedTotal (s : Index.Dashboard) : Js.number :=
  Js.Math_max (Js.ofZ 0)
    (Js.sub (totalSpent s)
            (if Index.applySavings s then potentialSavings s else Js.ofZ 0)).

Definition handleDismissAlert (id0 : string) (s : Index.Dashboard)
  : Index.Dashboard :=
  Index.mkDashboard (Index.expenses s)
    (List.filter (fun a => negb (String.eqb (Alert.id a) id0)) (Index.alerts s))
    (Index.savedSummary s) (Index.applySavings s) (Index.isModalOpen s)
    (Index.isGlobalLoading s)
    (Index.toasts s ++ [mkToast plainToast "Alert dismissed"]).

End IndexView.

(** ** context/AuthContext.tsx: accounts kept in the browser *)
Module AuthContext.

Record LocalUser : Type := mkLocalUser { uid : string; email : string }.

(** An entry of the accounts object: [{ email, passwordHash }]. *)
Record Account : Type := mkAccount {
  accountEmail : string;
  passwordHash : string
}.

(** The two items the provider keeps in local storage. An item holds JSON
    text and is kept as the value the text stands for: [None] when the item
    is absent, [Some None] when its text does not parse, [Some (Some v)]
    when it is the JSON of [v]. The accounts item is an object keyed by
    lower-cased email. *)
Record LocalStorage : Type := mkLocalStorage {
  auth_users : option (option (gmap string Account));
  auth_session : option (option LocalUser)
}.

(** The provider's state. *)
Record Auth : Type := mkAuth { user : option LocalUser; loading : bool }.

(** [JSON.parse(localStorage.getItem(USERS_KEY) || "{}")], with [{}] when
    parsing throws. *)
Definition readUsers (ls : LocalStorage) : gmap string Account :=
  match auth_users ls with
  | Some (Some users) => users
  | _ => ∅
  end.

Definition writeUsers (users : gmap string Account) (ls : LocalStorage)
  : LocalStorage :=
  mkLocalStorage (Some (Some users)) (auth_session ls).

Definition persistSession (u : option LocalUser) (ls : LocalStorage)
  : LocalStorage :=
  match u with
  | Some u => mkLocalStorage (auth_users ls) (Some (Some u))
  | None => mkLocalStorage (auth_users ls) None
  end.

(** The keys every object answers to through [Object.prototype]; of these
    only the ones written in lower case can meet a lower-cased email. *)
Definition inherited (key : string) : bool :=
  String.eqb key "constructor" || String.eqb key "__proto__".

Definition msgExists : string := "Account already exists".
Definition msgInvalid : string := "Invalid credentials".
Definition msgNoGoogle : string :=
  "Google sign-in is not available without a backend provider".

Section Provider.
(** The hex digest of [crypto.subtle.digest("SHA-256", ...)]. *)
Variable sha256 : string -> string.

(** The effect run once on mount: restore the session, then stop
    loading. *)
Definition restore (a : Auth) (ls : LocalStorage) : Auth :=
  match auth_session ls with
  | Some (Some u) => mkAuth (Some u) false
  | _ => mkAuth (user a) false
  end.

(** [signup(email, password)]; [uuid] is what [crypto.randomUUID()]
    returns. *)
Definition signup (email password uuid : string) (a : Auth)
    (ls : LocalStorage) : outcome unit * Auth * LocalStorage :=
  let users := readUsers ls in
  let key := Js.toLowerCase email in
  if bool_decide (is_Some (users !! key)) || inherited key then
    (Throw msgExists, a, ls)
  else
    let users := <[key := mkAccount email (sha256 password)]> users in
    let ls := writeUsers users ls in
    let u := mkLocalUser uuid email in
    (Return tt, mkAuth (Some u) (loading a), persistSession (Some u) ls).

Definition login (email password uuid : string) (a : Auth)
    (ls : LocalStorage) : outcome unit * Auth * LocalStorage :=
  let users := readUsers ls in
  let key := Js.toLowerCase email in
  match users !! key with
  | None => (Throw msgInvalid, a, ls)
  | Some rec =>
      if negb (String.eqb (passwordHash rec) (sha256 password)) then
        (Throw msgInvalid, a, ls)
      else
        let u := mkLocalUser uuid email in
        (Return tt, mkAuth (Some u) (loading a), persistSession (Some u) ls)
  end.

Definition loginWithGoogle (a : Auth) (ls : LocalStorage)
  : outcome unit * Auth * LocalStorage :=
  (Throw msgNoGoogle, a, ls).

Definition logout (a : Auth) (ls : LocalStorage)
  : outcome unit * Auth * LocalStorage :=
  (Return tt, mkAuth None (loading a), persistSession None ls).

End Provider.

(** [user?.email ? user.email.toLowerCase() : 'guest'] of pages/Index.tsx *)
Definition userKey (u : option LocalUser) : string :=
  match u with
  | Some u => if Js.truthy (email u) then Js.toLowerCase (email u) else "guest"
  | None => "guest"
  end.

End AuthContext.

(** * Further definitions for the properties *)

Definition sampleNoAmount : string :=
  "Date, Description ,type" +:+ newline +:+ "not a date,x" +:+ newline.

(** The text of a file from its lines, joined by line feeds. *)
Fixpoint unlines (ls : list string) : string :=
  match ls with
  | [] => EmptyString
  | [l] => l
  | l :: rest => l +:+ String "010"%char (unlines rest)
  end.

(** A line as a Windows editor ends it: with a carriage return before the
    line feed. *)
Definition withCR (l : string) : string := l +:+ String "013"%char EmptyString.

(** A text without line feed. *)
Fixpoint oneLine (s : string) : bool :=
  match s with
  | EmptyString => true
  | String c s' => negb (Ascii.eqb c "010"%char) && oneLine s'
  end.

(** The same line, with or without a carriage return at its end. *)
Definition sameLine (l l' : string) : Prop := l' = l \/ l' = withCR l.

Definition sampleWindowsLines : list string :=
  ["date,description,amount,type" +:+ String "013"%char EmptyString;
   "2024-01-06,Swiggy order,-250.50,Debit" +:+ String "013"%char EmptyString;
   ""].

(** The keywords of the food category. *)
Definition foodKeywords : list string :=
  ["food"; "restaurant"; "cafe"; "swiggy"; "zomato"].

(** Every keyword [bankRecordToExpense] looks for. *)
Definition allKeywords : list string :=
  foodKeywords
  ++ ["uber"; "ola"; "taxi"; "bus"; "metro";
      "amazon"; "flipkart"; "myntra"; "shopping";
      "netflix"; "prime"; "hotstar"; "movie";
      "electricity"; "water"; "gas"; "internet"; "phone";
      "subscription"; "spotify"; "apple music";
      "grocery"; "supermarket"; "bigbasket";
      "hospital"; "medical"; "pharmacy"].

(** The value of a finite number; zero stands in for the others. *)
Definition toQ (x : Js.number) : Q :=
  match x with Js.Finite q => q | _ => 0%Q end.

(** An expense whose amount is a finite number. *)
Definition finiteAmount (e : Expense) : Prop := exists q, amount e = Js.Finite q.

Definition uncappedDashboard : Index.Dashboard :=
  Index.mkDashboard (Index.expenses cappedDashboard) [] zeroSummary
                    false false false [].

Definition signedOutDb : Database.MemoryStore :=
  Database.mkMemoryStore None 7 (Database.docs sampleDb).

Definition isManual (e : Expense) : bool := bool_decide (source e = MANUAL).

(** A stand-in digest for the examples. *)
Definition sampleDigest (password : string) : string := "sha:" +:+ password.

Definition emptyStorage : AuthContext.LocalStorage :=
  AuthContext.mkLocalStorage None None.

Definition signedOut : AuthContext.Auth := AuthContext.mkAuth None false.

Definition registeredStorage : AuthContext.LocalStorage :=
  (AuthContext.signup sampleDigest "Asha@Example.com" "s3cret" "u-1"
                      signedOut emptyStorage).2.

(** An expense whose amount is a finite number, not below zero. *)
Definition plainAmount (e : Expense) : Prop :=
  exists q, amount e = Js.Finite q /\ (0 <= q)%Q.

(** * Properties *)

(** ** The CSV decoder *)

Section DecoderFacts.
Import Defects.
Variable newDate : string -> Date.

(** Past the header check every field the loop reads is there: the
    lookups of [date], [description], [amount] and [type] never meet a
    missing key. *)
Lemma required_present headers name :
  Csv.missingHeader headers = None ->
  In name Csv.requiredHeaders -> name ∈ headers.
Proof.
  intros Hnone Hin. unfold Csv.missingHeader in Hnone.
  pose proof (find_none _ _ Hnone name Hin) as Hname. simpl in Hname.
  apply negb_false_iff, bool_decide_eq_true in Hname. exact Hname.
Qed.

Lemma assign_other record h v name :
  h <> name -> Csv.assign record (h, v) !! name = record !! name.
Proof.
  intros Hne. unfold Csv.assign. simpl.
  destruct (String.eqb h Csv.protoKey); [reflexivity|].
  by rewrite lookup_insert_ne.
Qed.

Lemma assign_same record name v :
  name <> Csv.protoKey -> Csv.assign record (name, v) !! name = Some v.
Proof.
  intros Hne. unfold Csv.assign. simpl.
  destruct (String.eqb name Csv.protoKey) eqn:Heq.
  - by apply String.eqb_eq in Heq.
  - by rewrite lookup_insert_eq.
Qed.

Lemma foldl_insert_lookup (pairs : list (string * string)) name :
  name <> Csv.protoKey ->
  forall record : gmap string string,
  name ∈ pairs.*1 \/ is_Some (record !! name) ->
  is_Some (foldl Csv.assign record pairs !! name).
Proof.
  intros Hown.
  induction pairs as [|[h v] pairs IH]; intros record Hname; simpl.
  - destruct Hname as [Hin | Hsome]; [|exact Hsome]. by inversion Hin.
  - apply IH. destruct (decide (h = name)) as [-> | Hne].
    + right. rewrite assign_same by assumption. eauto.
    + destruct Hname as [Hin | Hsome].
      * left. simpl in Hin. apply elem_of_cons in Hin as [-> | Hin]; done.
      * right. by rewrite assign_other.
Qed.

Lemma buildRecord_required headers values name :
  Csv.missingHeader headers = None ->
  length values = length headers ->
  In name Csv.requiredHeaders ->
  is_Some (Csv.buildRecord headers values !! name).
Proof.
  intros Hnone Hlen Hin. unfold Csv.buildRecord.
  apply foldl_insert_lookup.
  - intros ->. simpl in Hin. unfold Csv.protoKey in Hin.
    repeat destruct Hin as [Hin | Hin]; try discriminate Hin; exact Hin.
  - left. rewrite fst_zip by lia. by apply required_present.
Qed.

Lemma parseRow_defect headers i line :
  Csv.parseRow newDate headers i line =
  match rowDefect newDate headers line with
  | Some d => Throw (defectMessage d (i + 1) headers line)
  | None => Return (recordOf headers line)
  end.
Proof.
  unfold Csv.parseRow, rowDefect, recordOf, readType, cell, cells.
  destruct (negb (length _ =? length headers)%nat); [reflexivity|].
  destruct (negb (validDate _)); [reflexivity|].
  destruct (Js.isNaN _); [reflexivity|].
  destruct (String.eqb _ "debit"); [reflexivity|].
  destruct (String.eqb _ "credit"); reflexivity.
Qed.

Lemma parseRows_valid headers rows : forall i acc,
  Forall (fun line => rowDefect newDate headers line = None) rows ->
  Csv.parseRows newDate headers i rows acc
  = Return (acc ++ List.map (recordOf headers) rows).
Proof.
  induction rows as [|line rows IH]; intros i acc Hall; simpl.
  - by rewrite app_nil_r.
  - inversion Hall as [|? ? Hline Hrows]; subst.
    rewrite parseRow_defect, Hline, IH by assumption.
    by rewrite <- app_assoc.
Qed.


Lemma parseRows_length headers rows : forall i acc records,
  Csv.parseRows newDate headers i rows acc = Return records ->
  length records = (length acc + length rows)%nat.
Proof.
  induction rows as [|line rows IH]; intros i acc records; simpl.
  - intros [= <-]. lia.
  - destruct (Csv.parseRow newDate headers i line); [discriminate|].
    intros Hrec. apply IH in Hrec. rewrite length_app in Hrec. simpl in Hrec. lia.
Qed.

(** A successful decoding yields at least one record. *)
Lemma parseCSV_nonempty csvContent records :
  Csv.parseCSV newDate csvContent = Return records -> records <> [].
Proof.
  unfold Csv.parseCSV.
  destruct (length (Csv.nonBlankLines csvContent) <? 2)%nat eqn:Hlen;
    [discriminate|].
  destruct (Csv.nonBlankLines csvContent) as [|header rows]; [discriminate|].
  destruct (Csv.missingHeader _); [discriminate|].
  intros Hrows%parseRows_length Hnil. subst records.
  apply Nat.ltb_ge in Hlen. simpl in *. lia.
Qed.

Lemma parseCSV_rows csvContent header rows :
  Csv.nonBlankLines csvContent = header :: rows -> rows <> [] ->
  Csv.missingHeader (Csv.headerNames header) = None ->
  Csv.parseCSV newDate csvContent
  = Csv.parseRows newDate (Csv.headerNames header) 1 rows [].
Proof.
  intros Hlines Hrows Hhead. unfold Csv.parseCSV. rewrite Hlines, Hhead.
  destruct rows; [done|]. reflexivity.
Qed.

Lemma abs_negative x : negative x = true -> Js.Math_abs x = Js.neg x.
Proof.
  destruct x as [|[]|[n d]]; simpl; try discriminate; try reflexivity.
  unfold negative, Js.lt, Js.ofZ, Qcompare. simpl. intros Hlt.
  change (0 * Z.pos d)%Z with 0%Z in Hlt.
  destruct (n * 1 ?= 0)%Z eqn:Hcmp; try discriminate.
  change (n * 1 < 0)%Z in Hcmp.
  unfold Qopp. simpl. do 2 f_equal. lia.
Qed.

End DecoderFacts.

Import Defects.










(** C10. A data row whose amount cell parses to a number below zero, and
    which has the right number of columns, a date the host reads and a type
    of debit or credit, is decoded, not rejected: with the other rows free
    of defects [parseCSV] returns, and the record of that row carries the
    absolute value of the parsed number. *)
Theorem parseCSV_folds_negative_amount
    (newDate : string -> Date) (csvContent header : string)
    (before : list string) (line : string) (after : list string) :
  let headers := Csv.headerNames header in
  let parsed := Js.parseFloat (cell headers line "amount") in
  Csv.nonBlankLines csvContent = header :: before ++ line :: after ->
  Csv.missingHeader headers = None ->
  Forall (fun l => rowDefect newDate headers l = None) (before ++ after) ->
  length (cells line) = length headers ->
  validDate (newDate (cell headers line "date")) = true ->
  is_Some (readType (cell headers line "type")) ->
  negative parsed = true ->
  exists records r,
    Csv.parseCSV newDate csvContent = Return records /\
    records !! length before = Some r /\
    Csv.amount r = Js.Math_abs parsed /\
    Csv.amount r = Js.neg parsed /\
    negative (Csv.amount r) = false.
Proof.
  intros headers parsed Hlines Hhead Hothers Hcols Hdate [ty Hty] Hneg.
  assert (Hline : rowDefect newDate headers line = None).
  { unfold rowDefect. fold headers. rewrite Hcols, Nat.eqb_refl, Hdate. simpl.
    fold parsed. destruct parsed; try discriminate Hneg; simpl; by rewrite Hty. }
  apply Forall_app in Hothers as [Hbefore Hafter].
  exists (List.map (recordOf headers) (before ++ line :: after)),
         (recordOf headers line).
  split; [|split; [|split; [|split]]].
  - rewrite (parseCSV_rows newDate _ _ _ Hlines) by
      (try assumption; by destruct before).
    fold headers. rewrite parseRows_valid; [reflexivity|].
    apply Forall_app. split; [assumption|]. by constructor.
  - rewrite list_lookup_fmap, lookup_app_r by lia.
    by rewrite Nat.sub_diag.
  - reflexivity.
  - simpl. fold parsed. by apply abs_negative.
  - simpl. fold parsed. rewrite (abs_negative _ Hneg).
    destruct parsed as [|[]|[n d]]; try discriminate Hneg; try reflexivity.
    unfold negative, Js.lt, Js.ofZ, Js.neg, Qcompare in *. simpl in *.
    rewrite Z.mul_0_l in *.
    destruct (Z.compare_spec (n * 1) 0); try discriminate Hneg.
    destruct (Z.compare_spec (- n * 1) 0); try reflexivity. lia.
Qed.

Lemma parseCSV_folds_negative_amount_witness :
  exists records r,
    Csv.parseCSV Csv.isoDate sampleNegative = Return records /\
    records !! 1%nat = Some r /\
    Csv.amount r = Js.Math_abs (Js.parseFloat "-250.50") /\
    Csv.amount r = Js.neg (Js.parseFloat "-250.50") /\
    negative (Csv.amount r) = false.
Proof.
  apply (parseCSV_folds_negative_amount Csv.isoDate sampleNegative
           "date,description,amount,type"
           ["2024-01-05,Salary,1000,credit"]
           "2024-01-06,Swiggy order,-250.50,Debit" []).
  - vm_compute. reflexivity.
  - vm_compute. reflexivity.
  - repeat constructor.
  - vm_compute. reflexivity.
  - vm_compute. reflexivity.
  - vm_compute. eauto.
  - vm_compute. reflexivity.
Defined.

(** ** The import handler *)

Section UploadFacts.
Import CSVUpload Database.
Variable newDate : string -> Date.
Variable classifyExpense : Expense -> list Expense -> Flags.
Context {DB : Type} `{Firestore DB}.

Lemma convert_one existing d :
  convert newDate classifyExpense existing [d] [] []
  = ([withImpulse (bankRecordToExpense newDate d)
        (impulse (classifyExpense (bankRecordToExpense newDate d) existing))],
     [bankRecordToExpense newDate d]).
Proof. reflexivity. Qed.

Lemma filter_no_debit records :
  Forall (fun r => Csv.type r = Csv.credit) records ->
  List.filter Csv.isDebit records = [].
Proof.
  induction 1 as [|r records Hr _ IH]; [reflexivity|].
  simpl. unfold Csv.isDebit at 1. by rewrite Hr.
Qed.

Lemma importFile_no_debit csvContent existing db records :
  Csv.parseCSV newDate csvContent = Return records ->
  Forall (fun r => Csv.type r = Csv.credit) records ->
  importFile newDate classifyExpense csvContent existing db
  = (Throw msgNoDebits, [], db).
Proof.
  intros Hparse Hcredit. unfold importFile. rewrite Hparse.
  pose proof (parseCSV_nonempty _ _ _ Hparse) as Hne.
  destruct records as [|r records]; [done|].
  rewrite (filter_no_debit _ Hcredit). reflexivity.
Qed.

(** Both copies of the component build the same expenses from the same
    classifier calls. *)
Lemma convertSinglePass_convert existing records : forall acc calls,
  convertSinglePass newDate classifyExpense existing records acc calls
  = convert newDate classifyExpense existing
            (List.filter Csv.isDebit records) acc calls.
Proof.
  induction records as [|r records IH]; intros acc calls; [reflexivity|].
  simpl. destruct (Csv.isDebit r); simpl; apply IH.
Qed.

Lemma importFileSinglePass_no_debit csvContent existing records :
  Csv.parseCSV newDate csvContent = Return records ->
  Forall (fun r => Csv.type r = Csv.credit) records ->
  importFileSinglePass newDate classifyExpense csvContent existing
  = (Throw msgNoDebits, []).
Proof.
  intros Hparse Hcredit. unfold importFileSinglePass. rewrite Hparse.
  pose proof (parseCSV_nonempty _ _ _ Hparse) as Hne.
  destruct records as [|r records]; [done|].
  rewrite convertSinglePass_convert, (filter_no_debit _ Hcredit).
  reflexivity.
Qed.

End UploadFacts.

(** C9. A file that decodes but holds credit rows only is an error for the
    user: the handler ends in the error status with the message
    "No debit transactions found in CSV", shows the failure toast, calls
    neither the classifier nor [onUploadSuccess], and leaves the store as it
    was. The single-pass copy of the component throws the same error. *)
Theorem handleFileSelect_all_credit_is_error
    (newDate : string -> Date) (classifyExpense : Expense -> list Expense -> Flags)
    (DB : Type) (F : Database.Firestore DB)
    (file : CSVUpload.File) (existingExpenses : option (list Expense))
    (c : CSVUpload.Component) (db : DB) (records : list Csv.BankRecord) :
  CSVUpload.endsWith (Js.toLowerCase (CSVUpload.name file)) ".csv" = true ->
  Csv.parseCSV newDate (CSVUpload.text file) = Return records ->
  Forall (fun r => Csv.type r = Csv.credit) records ->
  CSVUpload.handleFileSelect newDate classifyExpense (Some file)
                             existingExpenses c db
  = (CSVUpload.mkRun
       (CSVUpload.mkComponent false CSVUpload.error
                              "No debit transactions found in CSV")
       [mkToast errorToast "Upload failed"] [] None true,
     db) /\
  CSVUpload.importFileSinglePass newDate classifyExpense
    (CSVUpload.text file) (default [] existingExpenses)
  = (Throw "No debit transactions found in CSV", []).
Proof.
  intros Hname Hparse Hcredit. split.
  - unfold CSVUpload.handleFileSelect. rewrite Hname. simpl.
    by rewrite (importFile_no_debit _ _ _ _ _ _ Hparse Hcredit).
  - by apply importFileSinglePass_no_debit with records.
Qed.

Lemma handleFileSelect_all_credit_is_error_witness :
  CSVUpload.handleFileSelect Csv.isoDate Classifier.classify
    (Some sampleCreditsOnly) None freshComponent sampleStore
  = (CSVUpload.mkRun
       (CSVUpload.mkComponent false CSVUpload.error
                              "No debit transactions found in CSV")
       [mkToast errorToast "Upload failed"] [] None true,
     sampleStore) /\
  CSVUpload.importFileSinglePass Csv.isoDate Classifier.classify
    (CSVUpload.text sampleCreditsOnly) []
  = (Throw "No debit transactions found in CSV", []).
Proof.
  apply (handleFileSelect_all_credit_is_error Csv.isoDate Classifier.classify
           _ _ sampleCreditsOnly None freshComponent sampleStore
           [Csv.mkBankRecord "2024-01-05" "Salary" (Js.Finite 1000) Csv.credit;
            Csv.mkBankRecord "2024-01-09" "Refund" (Js.Finite 40) Csv.credit]).
  - vm_compute. reflexivity.
  - vm_compute. reflexivity.
  - repeat constructor.
Defined.

(** C7. For a file that decodes to one credit record and one debit record
    (in either order), and a store that accepts the write, the handler hands
    exactly one expense to [onUploadSuccess]: it carries the description and
    the amount of the debit record and [source = AUTO]; the classifier was
    called once, on the expense built from the debit record. The
    single-pass copy of the component builds the same single expense. *)
Theorem handleFileSelect_one_debit_one_credit
    (newDate : string -> Date) (classifyExpense : Expense -> list Expense -> Flags)
    (DB : Type) (F : Database.Firestore DB)
    (file : CSVUpload.File) (existingExpenses : option (list Expense))
    (c : CSVUpload.Component) (db db' : DB)
    (records : list Csv.BankRecord) (d cr : Csv.BankRecord)
    (ids : list string) :
  let base := Database.bankRecordToExpense newDate d in
  let expense :=
    withImpulse base
      (impulse (classifyExpense base (default [] existingExpenses))) in
  CSVUpload.endsWith (Js.toLowerCase (CSVUpload.name file)) ".csv" = true ->
  Csv.parseCSV newDate (CSVUpload.text file) = Return records ->
  records = [cr; d] \/ records = [d; cr] ->
  Csv.type d = Csv.debit ->
  Csv.type cr = Csv.credit ->
  Database.addExpenses [expense] db = (Return ids, db') ->
  exists run tx,
    CSVUpload.handleFileSelect newDate classifyExpense (Some file)
                               existingExpenses c db = (run, db') /\
    CSVUpload.delivered run = Some [tx] /\
    source tx = AUTO /\
    description tx = Csv.description d /\
    amount tx = Csv.amount d /\
    CSVUpload.classified run = [base] /\
    CSVUpload.uploadStatus (CSVUpload.component run) = CSVUpload.success /\
    CSVUpload.importFileSinglePass newDate classifyExpense
      (CSVUpload.text file) (default [] existingExpenses)
    = (Return [expense], [base]).
Proof.
  intros base expense Hname Hparse Hrecords Hd Hcr Hstore.
  assert (Hdebits : List.filter Csv.isDebit records = [d]).
  { destruct Hrecords as [-> | ->]; simpl; unfold Csv.isDebit;
      by rewrite Hd, Hcr. }
  assert (Hlen : (length records =? 0)%nat = false).
  { by destruct Hrecords as [-> | ->]. }
  unfold CSVUpload.handleFileSelect, CSVUpload.importFile.
  rewrite Hname, Hparse, Hlen, Hdebits. simpl.
  fold base. fold expense. rewrite Hstore. simpl.
  eexists _, _. split; [reflexivity|]. simpl.
  do 6 (split; [reflexivity|]).
  unfold CSVUpload.importFileSinglePass.
  rewrite Hparse, Hlen, convertSinglePass_convert, Hdebits. reflexivity.
Qed.

Lemma handleFileSelect_one_debit_one_credit_witness :
  exists run tx,
    CSVUpload.handleFileSelect Csv.isoDate Classifier.classify
      (Some sampleStatement) None freshComponent sampleStore
    = (run,
       Database.mkMemoryStore (Some "u1") 1
         [("doc0",
           ("u1", mkExpense None "Swiggy order" (Js.Finite 250.50) food
                            (DateOf 2024 0 6) false AUTO))]) /\
    CSVUpload.delivered run = Some [tx] /\
    source tx = AUTO /\
    description tx = "Swiggy order" /\
    amount tx = Js.Finite (Qabs (-250.50)) /\
    CSVUpload.classified run
    = [mkExpense None "Swiggy order" (Js.Finite 250.50) food
                 (DateOf 2024 0 6) false AUTO] /\
    CSVUpload.uploadStatus (CSVUpload.component run) = CSVUpload.success /\
    CSVUpload.importFileSinglePass Csv.isoDate Classifier.classify
      (CSVUpload.text sampleStatement) []
    = (Return [mkExpense None "Swiggy order" (Js.Finite 250.50) food
                         (DateOf 2024 0 6) false AUTO],
       [mkExpense None "Swiggy order" (Js.Finite 250.50) food
                  (DateOf 2024 0 6) false AUTO]).
Proof.
  apply (handleFileSelect_one_debit_one_credit Csv.isoDate Classifier.classify
           _ _ sampleStatement None freshComponent sampleStore _
           [Csv.mkBankRecord "2024-01-05" "Salary" (Js.Finite 1000) Csv.credit;
            Csv.mkBankRecord "2024-01-06" "Swiggy order"
                             (Js.Finite (Qabs (-250.50))) Csv.debit]
           (Csv.mkBankRecord "2024-01-06" "Swiggy order"
                             (Js.Finite (Qabs (-250.50))) Csv.debit)
           (Csv.mkBankRecord "2024-01-05" "Salary" (Js.Finite 1000) Csv.credit)
           ["doc0"]).
  - vm_compute. reflexivity.
  - vm_compute. reflexivity.
  - left. reflexivity.
  - reflexivity.
  - reflexivity.
  - vm_compute. reflexivity.
Defined.

(** ** The dashboard handlers *)

Section DashboardFacts.
Import Index Database.
Variable Storage : Type.
Variable classifyExpense : Expense -> list Expense -> Flags.
Variable computeCategoryCap :
  list Expense -> list HabitAlert -> Category -> Date -> option Js.number.
Variable recomputeAlerts : list Expense -> list HabitAlert.
Variable reconcileSavingsLedger :
  string -> list Expense -> option Date -> Storage -> SavingsSummary * Storage.
Context {DB : Type} `{Firestore DB}.

Lemma find_unique (id0 : string) (es : list Expense) (target : Expense) :
  NoDup (omap id es) ->
  List.find (fun e => bool_decide (id e = Some id0)) es = Some target ->
  forall e, In e es -> id e = Some id0 -> e = target.
Proof.
  induction es as [|x es IH]; intros Hnd Hfind e Hin Hid; [done|].
  simpl in Hfind.
  destruct (bool_decide (id x = Some id0)) eqn:Hx.
  - apply bool_decide_eq_true in Hx. injection Hfind as <-.
    destruct Hin as [-> | Hin]; [reflexivity|].
    exfalso. simpl in Hnd. rewrite Hx in Hnd. simpl in Hnd.
    apply NoDup_cons in Hnd as [Hfresh _]. apply Hfresh.
    apply list_elem_of_omap. exists e. split; [|assumption].
    by apply list_elem_of_In.
  - apply bool_decide_eq_false in Hx.
    destruct Hin as [-> | Hin]; [done|].
    apply IH; try assumption.
    simpl in Hnd. destruct (id x); simpl in Hnd; [|assumption].
    by apply NoDup_cons in Hnd as [_ Hnd].
Qed.

Lemma filter_auto_without (k : option string) (es : list Expense) :
  (forall e, In e es -> id e = k -> source e = MANUAL) ->
  List.filter isAuto
    (List.filter (fun e => negb (bool_decide (id e = k))) es)
  = List.filter isAuto es.
Proof.
  induction es as [|x es IH]; intros Hmanual; [reflexivity|].
  simpl. destruct (bool_decide (id x = k)) eqn:Hxk; simpl.
  - apply bool_decide_eq_true in Hxk.
    unfold isAuto at 2. rewrite (Hmanual x) by (by left || assumption).
    simpl. apply IH. intros e He. apply Hmanual. by right.
  - rewrite IH; [reflexivity|]. intros e He. apply Hmanual. by right.
Qed.

(** A delete request aimed at an expense that is not MANUAL changes
    nothing: no call to the store, no new state. *)
Lemma handleDeleteExpense_guard userKey id0 s ls db target :
  List.find (fun e => bool_decide (id e = Some id0)) (expenses s)
  = Some target ->
  source target <> MANUAL ->
  handleDeleteExpense Storage recomputeAlerts reconcileSavingsLedger
                      userKey id0 s ls db = (s, ls, db).
Proof.
  intros Hfind Hsrc. unfold handleDeleteExpense. rewrite Hfind.
  by rewrite bool_decide_eq_false_2.
Qed.

(** A click on a row that is not MANUAL never reaches the handler. *)
Lemma clickRow_auto userKey expense confirmed s ls db :
  source expense = AUTO ->
  clickRow Storage recomputeAlerts reconcileSavingsLedger userKey expense
           confirmed s ls db = (s, ls, db).
Proof.
  intros Hsrc. unfold clickRow, ExpenseList.onClick. by rewrite Hsrc.
Qed.

Lemma enforceCap_closeModal now newExpense s :
  enforceCap computeCategoryCap now newExpense (closeModal s)
  = enforceCap computeCategoryCap now newExpense s.
Proof. reflexivity. Qed.

(** The three outcomes of the cap check. *)
Lemma enforceCap_blocked now newExpense s cap :
  applySavings s = true ->
  computeCategoryCap (expenses s) (badAlerts s) (Form.category newExpense) now
  = Some cap ->
  Js.le (remainingUnder cap now (Form.category newExpense) (expenses s))
        (Js.ofZ 0) = true ->
  enforceCap computeCategoryCap now newExpense s = Blocked.
Proof. intros Hon Hcap Hle. unfold enforceCap. by rewrite Hon, Hcap, Hle. Qed.

Lemma enforceCap_reduced now newExpense s cap :
  applySavings s = true ->
  computeCategoryCap (expenses s) (badAlerts s) (Form.category newExpense) now
  = Some cap ->
  let remaining :=
    remainingUnder cap now (Form.category newExpense) (expenses s) in
  Js.le remaining (Js.ofZ 0) = false ->
  Js.gt (Form.amount newExpense) remaining = true ->
  enforceCap computeCategoryCap now newExpense s
  = Proceed remaining [mkToast plainToast "Spending optimized"].
Proof.
  intros Hon Hcap remaining Hle Hgt. unfold enforceCap.
  rewrite Hon, Hcap. fold remaining. by rewrite Hle, Hgt.
Qed.

Lemma enforceCap_fits now newExpense s cap :
  applySavings s = true ->
  computeCategoryCap (expenses s) (badAlerts s) (Form.category newExpense) now
  = Some cap ->
  let remaining :=
    remainingUnder cap now (Form.category newExpense) (expenses s) in
  Js.le remaining (Js.ofZ 0) = false ->
  Js.gt (Form.amount newExpense) remaining = false ->
  enforceCap computeCategoryCap now newExpense s
  = Proceed (Form.amount newExpense) [].
Proof.
  intros Hon Hcap remaining Hle Hgt. unfold enforceCap.
  rewrite Hon, Hcap. fold remaining. by rewrite Hle, Hgt.
Qed.

(** What [handleAddExpense] does once the cap check lets an amount
    through: that amount is what the store receives and, when the store
    accepts, what enters the list. *)
Lemma handleAddExpense_proceed userKey now newExpense s ls db finalAmount
    notice id0 db' :
  let expenseToAdd :=
    let base := mkExpense None (Form.description newExpense) finalAmount
                          (Form.category newExpense) now false MANUAL in
    withImpulse base (impulse (classifyExpense base (expenses s))) in
  enforceCap computeCategoryCap now newExpense s = Proceed finalAmount notice ->
  addExpense expenseToAdd db = (Return id0, db') ->
  exists s' ls',
    handleAddExpense Storage classifyExpense computeCategoryCap
      recomputeAlerts reconcileSavingsLedger userKey now newExpense s ls db
    = (s', ls', db') /\
    expenses s' = withId expenseToAdd (Some id0) :: expenses s /\
    (savedSummary s', ls')
    = reconcileSavingsLedger userKey
        (withId expenseToAdd (Some id0) :: expenses s) (Some now) ls.
Proof.
  intros expenseToAdd Hcap Hstore. unfold handleAddExpense.
  rewrite enforceCap_closeModal, Hcap. simpl.
  fold expenseToAdd. rewrite Hstore.
  destruct (reconcileSavingsLedger _ _ _ _) as [summary ls'] eqn:Hrec.
  eexists _, _. split; [reflexivity|]. simpl. by split.
Qed.

End DashboardFacts.

(** C8. With the ids assigned to the listed expenses pairwise distinct, a
    delete request leaves the AUTO expenses of the dashboard as they were,
    whatever the id and whatever the store answers; and a request aimed at
    an expense whose source is not MANUAL changes nothing at all: state,
    ledger and store stay as they were. *)
Theorem handleDeleteExpense_keeps_auto
    (Storage : Type) (recomputeAlerts : list Expense -> list HabitAlert)
    (reconcileSavingsLedger :
       string -> list Expense -> option Date -> Storage
       -> SavingsSummary * Storage)
    (DB : Type) (F : Database.Firestore DB)
    (userKey id0 : string) (s : Index.Dashboard) (ls : Storage) (db : DB) :
  NoDup (omap id (Index.expenses s)) ->
  let after :=
    Index.handleDeleteExpense Storage recomputeAlerts reconcileSavingsLedger
                              userKey id0 s ls db in
  List.filter isAuto (Index.expenses after.1.1)
  = List.filter isAuto (Index.expenses s) /\
  (forall target,
     List.find (fun e => bool_decide (id e = Some id0)) (Index.expenses s)
     = Some target ->
     source target <> MANUAL -> after = (s, ls, db)).
Proof.
  intros Hnd after. split.
  - unfold after, Index.handleDeleteExpense.
    destruct (List.find _ (Index.expenses s)) as [target|] eqn:Hfind;
      [|reflexivity].
    destruct (bool_decide (source target = MANUAL)) eqn:Hsrc; [|reflexivity].
    apply bool_decide_eq_true in Hsrc. simpl.
    destruct (Database.deleteExpense id0 db) as [[e|[]] db']; [reflexivity|].
    destruct (reconcileSavingsLedger _ _ _ _) as [summary ls']. simpl.
    apply filter_auto_without. intros e He Hid.
    by rewrite (find_unique _ _ _ Hnd Hfind e He Hid).
  - intros target Hfind Hsrc. by apply handleDeleteExpense_guard with target.
Qed.

Lemma handleDeleteExpense_keeps_auto_witness :
  let after :=
    Index.handleDeleteExpense _ (fun _ => []) loggingLedger
                              "guest" "b2" sampleDashboard [] sampleDb in
  List.filter isAuto (Index.expenses after.1.1)
  = List.filter isAuto (Index.expenses sampleDashboard) /\
  (forall target,
     List.find (fun e => bool_decide (id e = Some "b2"))
               (Index.expenses sampleDashboard) = Some target ->
     source target <> MANUAL -> after = (sampleDashboard, [], sampleDb)).
Proof.
  apply (handleDeleteExpense_keeps_auto _ (fun _ => []) loggingLedger
           Database.MemoryStore _ "guest" "b2" sampleDashboard [] sampleDb).
  simpl. apply (bool_decide_unpack _). vm_compute. reflexivity.
Defined.

(** C1 (what the code does). Under an active toggle and a cap, the amount
    requested beyond what remains is handed to no function and leaves no
    trace in what the handler sets or stores: when nothing remains the
    handler stops after the toast, with the expenses, the saved summary, the
    ledger and the store as they were; when something remains, two requests
    that both exceed it, alike in description and category, end with the
    same expenses, alerts, saved summary, ledger and store. No PREVENTED or
    REDUCED saving of the blocked amount is recorded. *)
Theorem handleAddExpense_forgets_blocked_amount
    (Storage : Type) (classifyExpense : Expense -> list Expense -> Flags)
    (computeCategoryCap :
       list Expense -> list HabitAlert -> Category -> Date
       -> option Js.number)
    (recomputeAlerts : list Expense -> list HabitAlert)
    (reconcileSavingsLedger :
       string -> list Expense -> option Date -> Storage
       -> SavingsSummary * Storage)
    (DB : Type) (F : Database.Firestore DB)
    (userKey : string) (now : Date) (request other : Index.NewExpense)
    (s : Index.Dashboard) (ls : Storage) (db : DB) (cap : Js.number) :
  let handle :=
    Index.handleAddExpense Storage classifyExpense computeCategoryCap
      recomputeAlerts reconcileSavingsLedger userKey now in
  let remaining :=
    Index.remainingUnder cap now (Index.Form.category request)
                         (Index.expenses s) in
  Index.applySavings s = true ->
  computeCategoryCap (Index.expenses s) (Index.badAlerts s)
                     (Index.Form.category request) now = Some cap ->
  Index.Form.description other = Index.Form.description request ->
  Index.Form.category other = Index.Form.category request ->
  (Js.le remaining (Js.ofZ 0) = true \/
   (Js.gt (Index.Form.amount request) remaining = true /\
    Js.gt (Index.Form.amount other) remaining = true)) ->
  let after := handle request s ls db in
  let after' := handle other s ls db in
  (Index.expenses after'.1.1 = Index.expenses after.1.1 /\
   Index.alerts after'.1.1 = Index.alerts after.1.1 /\
   Index.savedSummary after'.1.1 = Index.savedSummary after.1.1 /\
   after'.1.2 = after.1.2 /\ after'.2 = after.2) /\
  (Js.le remaining (Js.ofZ 0) = true ->
   Index.expenses after.1.1 = Index.expenses s /\
   Index.savedSummary after.1.1 = Index.savedSummary s /\
   after.1.2 = ls /\ after.2 = db).
Proof.
  intros handle remaining Hon Hcap Hdesc Hcat Hcase after after'.
  assert (Hsame : Js.le remaining (Js.ofZ 0) = false -> after' = after).
  { intros Hle. destruct Hcase as [Hle' | [Hgt Hgt']]; [congruence|].
    unfold after, after', handle, Index.handleAddExpense.
    rewrite !enforceCap_closeModal.
    rewrite (enforceCap_reduced _ now request s cap) by assumption.
    rewrite (enforceCap_reduced _ now other s cap)
      by (try assumption; by rewrite Hcat).
    by rewrite Hdesc, Hcat. }
  destruct (Js.le remaining (Js.ofZ 0)) eqn:Hle.
  - assert (Hb : Index.enforceCap computeCategoryCap now request s
                 = Index.Blocked)
      by (by apply enforceCap_blocked with cap).
    assert (Hb' : Index.enforceCap computeCategoryCap now other s
                  = Index.Blocked).
    { apply enforceCap_blocked with cap; try assumption; by rewrite Hcat. }
    unfold after, after', handle, Index.handleAddExpense.
    rewrite !enforceCap_closeModal, Hb, Hb'. by repeat split.
  - rewrite Hsame by reflexivity. by repeat split.
Qed.

Lemma handleAddExpense_forgets_blocked_amount_witness :
  let handle :=
    Index.handleAddExpense _ Classifier.classify foodCap (fun _ => [])
                           loggingLedger "guest" (january 20) in
  let remaining :=
    Index.remainingUnder (Js.ofZ 500) (january 20) food
                         (Index.expenses cappedDashboard) in
  let after :=
    handle (Index.Form.mkNewExpense "Lunch" (Js.ofZ 100) food)
           cappedDashboard [] sampleDb in
  let after' :=
    handle (Index.Form.mkNewExpense "Lunch" (Js.ofZ 1000) food)
           cappedDashboard [] sampleDb in
  (Index.expenses after'.1.1 = Index.expenses after.1.1 /\
   Index.alerts after'.1.1 = Index.alerts after.1.1 /\
   Index.savedSummary after'.1.1 = Index.savedSummary after.1.1 /\
   after'.1.2 = after.1.2 /\ after'.2 = after.2) /\
  (Js.le remaining (Js.ofZ 0) = true ->
   Index.expenses after.1.1 = Index.expenses cappedDashboard /\
   Index.savedSummary after.1.1 = Index.savedSummary cappedDashboard /\
   after.1.2 = [] /\ after.2 = sampleDb).
Proof.
  apply (handleAddExpense_forgets_blocked_amount
           _ Classifier.classify foodCap (fun _ => []) loggingLedger
           Database.MemoryStore _ "guest" (january 20)
           (Index.Form.mkNewExpense "Lunch" (Js.ofZ 100) food)
           (Index.Form.mkNewExpense "Lunch" (Js.ofZ 1000) food)
           cappedDashboard [] sampleDb (Js.ofZ 500)).
  - reflexivity.
  - reflexivity.
  - reflexivity.
  - reflexivity.
  - left. vm_compute. reflexivity.
Defined.

(** Nothing remains under the cap: the request of 100 ends in a toast, and
    neither the ledger nor the store hears of it. *)
Example handleAddExpense_blocked_example :
  Index.handleAddExpense _ Classifier.classify foodCap (fun _ => [])
    loggingLedger "guest" (january 20)
    (Index.Form.mkNewExpense "Lunch" (Js.ofZ 100) food)
    cappedDashboard [] sampleDb
  = (Index.mkDashboard (Index.expenses cappedDashboard) [] zeroSummary
       true false false [mkToast plainToast "Spending capped"],
     [], sampleDb).
Proof. vm_compute. reflexivity. Qed.

(** Two requests above what remains end alike. *)
Example handleAddExpense_reduced_alike :
  Index.handleAddExpense _ Classifier.classify foodCap (fun _ => [])
    loggingLedger "guest" (january 20)
    (Index.Form.mkNewExpense "Lunch" (Js.ofZ 1000) food)
    sampleDashboard [] sampleDb
  = Index.handleAddExpense _ Classifier.classify foodCap (fun _ => [])
      loggingLedger "guest" (january 20)
      (Index.Form.mkNewExpense "Lunch" (Js.ofZ 100) food)
      sampleDashboard [] sampleDb.
Proof. vm_compute. reflexivity. Qed.

(** The example of the specification: cap 500, 450 spent this month, a
    request of 100. The expense is stored with amount 50; the ledger is
    asked to reconcile the new list and is told nothing else. *)
Example handleAddExpense_cap_example :
  Index.handleAddExpense _ Classifier.classify foodCap (fun _ => [])
    loggingLedger "guest" (january 20)
    (Index.Form.mkNewExpense "Lunch" (Js.ofZ 100) food)
    sampleDashboard [] sampleDb
  = (Index.mkDashboard
       (mkExpense (Some "doc7") "Lunch" (Js.Finite 50) food (january 20)
                  false MANUAL
        :: Index.expenses sampleDashboard)
       [] zeroSummary true false false
       [mkToast plainToast "Spending optimized";
        mkToast successToast "Expense added"],
     [("guest",
       mkExpense (Some "doc7") "Lunch" (Js.Finite 50) food (january 20)
                 false MANUAL
       :: Index.expenses sampleDashboard)],
     Database.mkMemoryStore (Some "u1") 8
       (Database.docs sampleDb
        ++ [("doc7", ("u1", mkExpense None "Lunch" (Js.Finite 50) food
                                      (january 20) false MANUAL))])).
Proof. vm_compute. reflexivity. Qed.

(** ** The classifier *)

(** C2. A transaction of a non-essential category whose amount is above
    500 gets the impulse flag; a transaction whose amount is exactly 500
    does not, whatever its category. *)
Theorem classify_impulse_above_500
    (transaction : Expense) (history : list Expense) (q : Q) :
  amount transaction = Js.Finite q ->
  (Classifier.nonEssential (category transaction) = true ->
   (500 < q)%Q ->
   impulse (Classifier.classify transaction history) = true)
  /\ ((q == 500)%Q ->
      impulse (Classifier.classify transaction history) = false).
Proof.
  intros Hamount.
  assert (Hgt : Js.gt (amount transaction) Classifier.impulseThreshold = true
                <-> (500 < q)%Q).
  { unfold Classifier.impulseThreshold, Js.gt, Js.ofZ.
    rewrite Hamount. simpl. rewrite Qlt_alt.
    change (inject_Z 500) with (500%Q).
    destruct (500 ?= q)%Q; split; congruence. }
  unfold Classifier.classify. cbn [impulse]. split.
  - intros Hcat Hq. rewrite Hcat. by apply Hgt.
  - intros Heq. apply andb_false_intro2, not_true_is_false.
    rewrite Hgt. lra.
Qed.

Lemma classify_impulse_above_500_witness :
  let at500 :=
    mkExpense None "Shoes" (Js.Finite 500) shopping (DateOf 2024 0 6)
              false MANUAL in
  (Classifier.nonEssential shopping = true -> (500 < 500)%Q ->
   impulse (Classifier.classify at500 []) = true)
  /\ ((500 == 500)%Q -> impulse (Classifier.classify at500 []) = false).
Proof.
  apply (classify_impulse_above_500
           (mkExpense None "Shoes" (Js.Finite 500) shopping (DateOf 2024 0 6)
                      false MANUAL) [] 500%Q); reflexivity.
Defined.

Example classify_impulse_501 :
  impulse
    (Classifier.classify
       (mkExpense None "Shoes" (Js.Finite 501) shopping (DateOf 2024 0 6)
                  false MANUAL) [])
  = true.
Proof. reflexivity. Qed.

(** C3. The habit flag is set exactly when the candidate's category occurs
    4 or more times within the candidate's calendar month, the candidate
    counted: not at a third occurrence, but at a fourth. *)
Theorem classify_habit_from_fourth
    (transaction : Expense) (history : list Expense) :
  let earlier :=
    length
      (List.filter
         (fun e => bool_decide (category e = category transaction)
                   && sameMonth (date e) (date transaction))
         history) in
  (habit (Classifier.classify transaction history) = true
   <-> (4 <= earlier + 1)%nat)
  /\ ((earlier + 1 = 3)%nat ->
      habit (Classifier.classify transaction history) = false)
  /\ ((earlier + 1 = 4)%nat ->
      habit (Classifier.classify transaction history) = true).
Proof.
  intros earlier.
  assert (Hiff : habit (Classifier.classify transaction history) = true
                 <-> (4 <= earlier + 1)%nat).
  { unfold Classifier.classify. cbn [habit].
    unfold Classifier.habitThreshold, Classifier.occurrences. fold earlier.
    rewrite Nat.leb_le. lia. }
  split; [exact Hiff|]. split.
  - intros H3. apply not_true_is_false. rewrite Hiff. lia.
  - intros H4. apply Hiff. lia.
Qed.

Example classify_third_occurrence :
  habit (Classifier.classify (coffee 20)
           [coffee 3; coffee 9;
            mkExpense None "Cafe" (Js.Finite 120) food (DateOf 2023 11 28)
                      false MANUAL])
  = false.
Proof. reflexivity. Qed.

Example classify_fourth_occurrence :
  habit (Classifier.classify (coffee 20) [coffee 3; coffee 9; coffee 14])
  = true.
Proof. reflexivity. Qed.

(** ** The savings ledger *)

Section LedgerFacts.
Import Ledger.
Local Open Scope Q_scope.

Lemma residualSum_nonneg ty p transactions :
  Forall lowered transactions -> 0 <= residualSum ty p transactions.
Proof.
  induction 1 as [|t ts Ht _ IH]; simpl; [lra|].
  destruct (bool_decide (occurred t = p)); [|exact IH].
  unfold residual. unfold lowered in Ht.
  destruct (requested t) as [r|]; [|exact IH].
  destruct (Qeq_bool (committed t) 0), ty; try exact IH; lra.
Qed.

Lemma fold_nonneg (field : Buckets -> Q) (mine : gmap Period Buckets) :
  (forall p b, mine !! p = Some b -> 0 <= field b) ->
  0 <= map_fold (fun _ b acc => field b + acc) 0 mine.
Proof.
  apply (map_fold_weak_ind
           (fun r (m : gmap Period Buckets) =>
              (forall p b, m !! p = Some b -> 0 <= field b) -> 0 <= r)).
  - intros _. lra.
  - intros p b m r Hfresh IH Hall.
    assert (0 <= field b) by (apply (Hall p); by rewrite lookup_insert_eq).
    assert (0 <= r).
    { apply IH. intros p' b' Hp'. apply (Hall p').
      rewrite lookup_insert_ne; [assumption|]. congruence. }
    lra.
Qed.

(** The updated ledger of the user after a reconciliation. *)
Lemma reconcile_updated userKey transactions asOf ledger :
  (reconcile userKey transactions asOf ledger).2 !! storageKey userKey
  = Some (<[asOf :=
             mkBuckets (residualSum PREVENTED asOf transactions)
                       (residualSum REDUCED asOf transactions)
                       (optimized
                          (default noSavings
                             (default ∅ (ledger !! storageKey userKey)
                              !! asOf)))]>
            (default ∅ (ledger !! storageKey userKey))).
Proof. unfold reconcile. simpl. by rewrite lookup_insert_eq. Qed.

(** Reconciling one user leaves the ledgers of the others alone. *)
Lemma reconcile_other_user userKey transactions asOf ledger key :
  key <> storageKey userKey ->
  (reconcile userKey transactions asOf ledger).2 !! key = ledger !! key.
Proof. intros Hkey. unfold reconcile. simpl. by rewrite lookup_insert_ne. Qed.

(** User keys are matched without regard to case. *)
Lemma reconcile_case_insensitive userKey userKey' transactions asOf ledger :
  Js.toLowerCase userKey = Js.toLowerCase userKey' ->
  reconcile userKey transactions asOf ledger
  = reconcile userKey' transactions asOf ledger.
Proof. intros Hkey. unfold reconcile, storageKey. by rewrite Hkey. Qed.

End LedgerFacts.

(** C4. Reconciling twice in a row, the second time on the ledger the first
    call left, with the same user key, transactions and as-of period, gives
    the same summary and the same ledger: nothing is added a second
    time. *)
Theorem reconcile_idempotent
    (userKey : string) (transactions : list Ledger.Transaction)
    (asOf : Ledger.Period)
    (ledger : gmap string (gmap Ledger.Period Ledger.Buckets)) :
  let first := Ledger.reconcile userKey transactions asOf ledger in
  let second := Ledger.reconcile userKey transactions asOf first.2 in
  second.1 = first.1 /\ second.2 = first.2.
Proof.
  intros first second.
  assert (Hsame : second = first).
  { unfold second, first, Ledger.reconcile. simpl.
    rewrite lookup_insert_eq. simpl.
    rewrite lookup_insert_eq. simpl.
    by rewrite !insert_insert_eq. }
  by rewrite Hsame.
Qed.

(** C5. On a stored ledger with non-negative buckets, and transactions whose
    committed amounts are not negative and not above what was requested,
    the summary of a reconciliation has [total = prevented + reduced +
    optimized] and four non-negative fields; the updated ledger again has
    non-negative buckets. *)
Theorem reconcile_summary_invariant
    (userKey : string) (transactions : list Ledger.Transaction)
    (asOf : Ledger.Period)
    (ledger : gmap string (gmap Ledger.Period Ledger.Buckets)) :
  Ledger.nonNegative ledger ->
  Forall Ledger.lowered transactions ->
  let result := Ledger.reconcile userKey transactions asOf ledger in
  let summary := result.1 in
  Ledger.total summary
  = (Ledger.summaryPrevented summary + Ledger.summaryReduced summary
     + Ledger.summaryOptimized summary)%Q /\
  (0 <= Ledger.total summary)%Q /\
  (0 <= Ledger.summaryPrevented summary)%Q /\
  (0 <= Ledger.summaryReduced summary)%Q /\
  (0 <= Ledger.summaryOptimized summary)%Q /\
  Ledger.nonNegative result.2.
Proof.
  intros Hledger Htxs result summary.
  set (key := Ledger.storageKey userKey).
  set (mine := default ∅ (ledger !! key)).
  set (entry :=
         Ledger.mkBuckets
           (Ledger.residualSum Ledger.PREVENTED asOf transactions)
           (Ledger.residualSum Ledger.REDUCED asOf transactions)
           (Ledger.optimized (default Ledger.noSavings (mine !! asOf)))).
  assert (Hmine : forall p b, mine !! p = Some b ->
            (0 <= Ledger.prevented b)%Q /\ (0 <= Ledger.reduced b)%Q
            /\ (0 <= Ledger.optimized b)%Q).
  { intros p b Hp. unfold mine in Hp.
    destruct (ledger !! key) as [m|] eqn:Hm; simpl in Hp.
    - by apply (Hledger key m p b).
    - by rewrite lookup_empty in Hp. }
  assert (Hentry : (0 <= Ledger.prevented entry)%Q
                   /\ (0 <= Ledger.reduced entry)%Q
                   /\ (0 <= Ledger.optimized entry)%Q).
  { simpl. repeat split; try by apply residualSum_nonneg.
    destruct (mine !! asOf) as [b|] eqn:Hb; simpl.
    - by apply (Hmine asOf b).
    - lra. }
  assert (Hmine' : forall p b, <[asOf := entry]> mine !! p = Some b ->
            (0 <= Ledger.prevented b)%Q /\ (0 <= Ledger.reduced b)%Q
            /\ (0 <= Ledger.optimized b)%Q).
  { intros p b. destruct (decide (asOf = p)) as [<- | Hne].
    - rewrite lookup_insert_eq. by intros [= <-].
    - rewrite lookup_insert_ne by assumption. apply Hmine. }
  assert (Hpv : (0 <= Ledger.summaryPrevented summary)%Q).
  { apply (fold_nonneg Ledger.prevented). intros p b Hb.
    by apply (Hmine' p b). }
  assert (Hr : (0 <= Ledger.summaryReduced summary)%Q).
  { apply (fold_nonneg Ledger.reduced). intros p b Hb.
    by apply (Hmine' p b). }
  assert (Ho : (0 <= Ledger.summaryOptimized summary)%Q).
  { apply (fold_nonneg Ledger.optimized). intros p b Hb.
    by apply (Hmine' p b). }
  split; [reflexivity|]. split.
  { change (Ledger.total summary)
      with (Ledger.summaryPrevented summary + Ledger.summaryReduced summary
            + Ledger.summaryOptimized summary)%Q. lra. }
  do 3 (split; [assumption|]).
  intros k m p b Hk Hb. unfold result, Ledger.reconcile in Hk. simpl in Hk.
  fold key mine entry in Hk.
  destruct (decide (key = k)) as [<- | Hne].
  - rewrite lookup_insert_eq in Hk. injection Hk as <-. by apply (Hmine' p b).
  - rewrite lookup_insert_ne in Hk by assumption. by apply (Hledger k m p b).
Qed.

Lemma reconcile_summary_invariant_witness :
  let result :=
    Ledger.reconcile "Guest" sampleTransactions (2024, 0)%Z ∅ in
  let summary := result.1 in
  Ledger.total summary
  = (Ledger.summaryPrevented summary + Ledger.summaryReduced summary
     + Ledger.summaryOptimized summary)%Q /\
  (0 <= Ledger.total summary)%Q /\
  (0 <= Ledger.summaryPrevented summary)%Q /\
  (0 <= Ledger.summaryReduced summary)%Q /\
  (0 <= Ledger.summaryOptimized summary)%Q /\
  Ledger.nonNegative result.2.
Proof.
  apply (reconcile_summary_invariant "Guest" sampleTransactions
                                     (2024, 0)%Z ∅).
  - intros key mine p b Hkey. by rewrite lookup_empty in Hkey.
  - repeat constructor; vm_compute; discriminate.
Defined.

Example reconcile_sample :
  (Ledger.reconcile "Guest" sampleTransactions (2024, 0)%Z ∅).1
  = Ledger.mkSummary (0 + (50 + 0) + 0 + 0) 0 (0 + (50 + 0) + 0) 0.
Proof. vm_compute. reflexivity. Qed.

(** * Further properties of the sources *)

(** ** The decoder, row by row *)

Section DecoderMore.
Variable newDate : string -> Date.

Lemma parseRows_returns headers rows : forall i acc records,
  Csv.parseRows newDate headers i rows acc = Return records ->
  Forall (fun line => rowDefect newDate headers line = None) rows /\
  records = acc ++ List.map (recordOf headers) rows.
Proof.
  induction rows as [|line rows IH]; intros i acc records; simpl.
  - intros [= <-]. split; [constructor | by rewrite app_nil_r].
  - rewrite parseRow_defect.
    destruct (rowDefect newDate headers line) eqn:Hline; [discriminate|].
    intros Hrec. apply IH in Hrec as [Hrows ->]. split.
    + by constructor.
    + by rewrite <- app_assoc.
Qed.

Lemma abs_not_negative x : negative (Js.Math_abs x) = false.
Proof.
  destruct x as [|b|[n d]]; try reflexivity.
  unfold negative, Js.lt, Js.ofZ, Js.Math_abs, Qcompare. simpl.
  rewrite Z.mul_0_l.
  destruct (Z.compare_spec (Z.abs n * 1) 0); try reflexivity. lia.
Qed.

Lemma abs_isNaN x : Js.isNaN (Js.Math_abs x) = Js.isNaN x.
Proof. by destruct x. Qed.

Lemma rowDefect_none headers line :
  rowDefect newDate headers line = None ->
  length (cells line) = length headers /\
  validDate (newDate (cell headers line "date")) = true /\
  Js.isNaN (Js.parseFloat (cell headers line "amount")) = false /\
  is_Some (readType (cell headers line "type")).
Proof.
  unfold rowDefect.
  destruct (length (cells line) =? length headers)%nat eqn:Hlen;
    [|discriminate].
  destruct (validDate _) eqn:Hdate; [|discriminate].
  destruct (Js.isNaN _) eqn:Hnan; [discriminate|].
  destruct (readType _) eqn:Hty; [|discriminate].
  intros _. apply Nat.eqb_eq in Hlen. eauto.
Qed.

Lemma parseCSV_returns_rows csvContent records :
  Csv.parseCSV newDate csvContent = Return records ->
  exists header rows,
    Csv.nonBlankLines csvContent = header :: rows /\
    rows <> [] /\
    Csv.missingHeader (Csv.headerNames header) = None /\
    Forall (fun line =>
              rowDefect newDate (Csv.headerNames header) line = None) rows /\
    records = List.map (recordOf (Csv.headerNames header)) rows.
Proof.
  unfold Csv.parseCSV.
  destruct (length (Csv.nonBlankLines csvContent) <? 2)%nat eqn:Hlen;
    [discriminate|].
  destruct (Csv.nonBlankLines csvContent) as [|header rows];
    [discriminate|].
  destruct (Csv.missingHeader _) eqn:Hhead; [discriminate|].
  intros [Hrows ->]%parseRows_returns.
  exists header, rows. repeat split; try assumption.
  intros ->. simpl in Hlen. discriminate.
Qed.

End DecoderMore.

(** X1. Decoding returns exactly when the file has a header with the four
    required columns and at least one data row, and no data row has a
    defect; the records are then the data rows, one record per row, in the
    order of the file. *)
Theorem parseCSV_returns_iff
    (newDate : string -> Date) (csvContent : string)
    (records : list Csv.BankRecord) :
  Csv.parseCSV newDate csvContent = Return records <->
  exists header rows,
    Csv.nonBlankLines csvContent = header :: rows /\
    rows <> [] /\
    Csv.missingHeader (Csv.headerNames header) = None /\
    Forall (fun line =>
              rowDefect newDate (Csv.headerNames header) line = None) rows /\
    records = List.map (recordOf (Csv.headerNames header)) rows.
Proof.
  split.
  - apply parseCSV_returns_rows.
  - intros (header & rows & Hlines & Hne & Hhead & Hrows & ->).
    rewrite (parseCSV_rows newDate _ _ _ Hlines Hne Hhead).
    by rewrite parseRows_valid.
Qed.

(** X2. Every record a decoding returns carries an amount that is a number
    and is not below zero, and a date text the host reads as a date. *)
Theorem parseCSV_records_wellformed
    (newDate : string -> Date) (csvContent : string)
    (records : list Csv.BankRecord) :
  Csv.parseCSV newDate csvContent = Return records ->
  Forall (fun r => Js.isNaN (Csv.amount r) = false /\
                   negative (Csv.amount r) = false /\
                   validDate (newDate (Csv.date r)) = true) records.
Proof.
  intros (header & rows & _ & _ & _ & Hrows & ->)%parseCSV_returns_rows.
  apply Forall_fmap. eapply Forall_impl; [exact Hrows|].
  intros line (_ & Hdate & Hnan & _)%rowDefect_none. simpl.
  by rewrite abs_isNaN, abs_not_negative.
Qed.

Lemma parseCSV_records_wellformed_witness :
  Forall (fun r => Js.isNaN (Csv.amount r) = false /\
                   negative (Csv.amount r) = false /\
                   validDate (Csv.isoDate (Csv.date r)) = true)
    [Csv.mkBankRecord "2024-01-05" "Salary" (Js.Finite 1000) Csv.credit;
     Csv.mkBankRecord "2024-01-06" "Swiggy order"
                      (Js.Finite (Qabs (-250.50))) Csv.debit].
Proof.
  apply (parseCSV_records_wellformed Csv.isoDate sampleNegative).
  vm_compute. reflexivity.
Defined.

(** X3. A header that lacks a required column is refused before any row is
    looked at: whatever the rows hold, the error names the first of date,
    description, amount, type that the header does not have. *)
Theorem parseCSV_missing_column
    (newDate : string -> Date) (csvContent header : string)
    (rows : list string) (present : list string) (required : string)
    (others : list string) :
  Csv.nonBlankLines csvContent = header :: rows ->
  rows <> [] ->
  Csv.requiredHeaders = present ++ required :: others ->
  Forall (fun name => name ∈ Csv.headerNames header) present ->
  required ∉ Csv.headerNames header ->
  Csv.parseCSV newDate csvContent
  = Throw ("CSV must contain column: " +:+ required).
Proof.
  intros Hlines Hrows Hsplit Hpresent Hmissing.
  unfold Csv.parseCSV. rewrite Hlines.
  destruct rows as [|row rows]; [done|]. simpl.
  assert (Hfind : Csv.missingHeader (Csv.headerNames header) = Some required).
  { unfold Csv.missingHeader. rewrite Hsplit. clear Hsplit.
    induction Hpresent as [|name present Hname _ IH]; simpl.
    - by rewrite bool_decide_eq_false_2.
    - by rewrite bool_decide_eq_true_2. }
  by rewrite Hfind.
Qed.

Lemma parseCSV_missing_column_witness :
  Csv.parseCSV Csv.isoDate sampleNoAmount
  = Throw "CSV must contain column: amount".
Proof.
  apply (parseCSV_missing_column Csv.isoDate sampleNoAmount
           "Date, Description ,type" ["not a date,x"]
           ["date"; "description"] "amount" ["type"]).
  - vm_compute. reflexivity.
  - discriminate.
  - reflexivity.
  - repeat constructor; apply (bool_decide_unpack _); vm_compute; reflexivity.
  - apply (bool_decide_unpack _). vm_compute. reflexivity.
Defined.

(** ** Cells and columns *)

Lemma foldl_insert_fresh (pairs : list (string * string)) name :
  forall record : gmap string string,
  name ∉ pairs.*1 ->
  foldl Csv.assign record pairs !! name = record !! name.
Proof.
  induction pairs as [|[h v] pairs IH]; intros record Hfresh; [reflexivity|].
  simpl in *. apply not_elem_of_cons in Hfresh as [Hne Hfresh].
  rewrite IH by assumption. by rewrite assign_other.
Qed.

Lemma foldl_assign_proto (pairs : list (string * string)) :
  forall record : gmap string string,
  foldl Csv.assign record pairs !! Csv.protoKey = record !! Csv.protoKey.
Proof.
  induction pairs as [|[h v] pairs IH]; intros record; [reflexivity|].
  simpl. rewrite IH. unfold Csv.assign. simpl.
  destruct (String.eqb h Csv.protoKey) eqn:Heq; [reflexivity|].
  apply String.eqb_neq in Heq. by rewrite lookup_insert_ne.
Qed.

(** X4. Reading a row back by column name: under every name but
    [__proto__], the cell found is the cell of the last column so named, so
    with pairwise distinct names every such column is read back as it was
    written; a column named [__proto__] leaves no property of the record,
    whatever its cell holds. *)
Theorem buildRecord_last_column_wins
    (before : list string) (name : string) (after : list string)
    (left : list string) (value : string) (right : list string)
    (headers values : list string) :
  length before = length left ->
  name ∉ after ->
  name <> Csv.protoKey ->
  Csv.buildRecord (before ++ name :: after) (left ++ value :: right) !! name
  = Some value /\
  Csv.buildRecord headers values !! Csv.protoKey = None.
Proof.
  intros Hlen Hlast Hown. unfold Csv.buildRecord. split.
  - rewrite zip_with_app by assumption. rewrite foldl_app. simpl.
    rewrite foldl_insert_fresh.
    + by rewrite assign_same.
    + intros Hin. apply Hlast.
      apply list_elem_of_fmap in Hin as [[h v] [-> Hin]].
      by apply elem_of_zip_l in Hin.
  - by rewrite foldl_assign_proto.
Qed.

Lemma buildRecord_last_column_wins_witness :
  Csv.buildRecord (["date"; "amount"] ++ "amount" :: ["type"])
                  (["2024-01-06"; "10"] ++ "25" :: ["debit"]) !! "amount"
  = Some "25" /\
  Csv.buildRecord ["date"; "__proto__"] ["2024-01-06"; "x"] !! Csv.protoKey
  = None.
Proof.
  apply (buildRecord_last_column_wins ["date"; "amount"] "amount" ["type"]
           ["2024-01-06"; "10"] "25" ["debit"]
           ["date"; "__proto__"] ["2024-01-06"; "x"]).
  - reflexivity.
  - apply (bool_decide_unpack _). vm_compute. reflexivity.
  - discriminate.
Defined.

(** ** Amount cells *)

Lemma digitsValue_nonneg ds : forall acc,
  (0 <= acc)%Z ->
  (0 <= foldl (fun acc d => (10 * acc + Z.of_N d)%Z) acc ds)%Z.
Proof.
  induction ds as [|d ds IH]; intros acc Hacc; simpl; [assumption|].
  apply IH. lia.
Qed.

Lemma scale10_nonneg m e : (0 <= m)%Z -> (0 <= Js.scale10 m e)%Q.
Proof.
  intros Hm. destruct e as [|p|p]; unfold Js.scale10, Qle; simpl; lia.
Qed.

Lemma parseUnsigned_digits s d ds rest :
  Js.takeDigits s = (d :: ds, rest) ->
  String.prefix "Infinity" s = false ->
  exists q, Js.parseUnsigned s = Js.Finite q /\ (0 <= q)%Q.
Proof.
  intros Hdigits Hinf. unfold Js.parseUnsigned. rewrite Hinf, Hdigits.
  assert (Hnn : forall l, (0 <= Js.digitsValue ((d :: ds) ++ l))%Z)
    by (intros l; by apply digitsValue_nonneg).
  assert (Hplain : exists q,
            Js.Finite (Js.scale10 (Js.digitsValue (d :: ds))
                                  (Js.takeExponent rest)) = Js.Finite q
            /\ (0 <= q)%Q).
  { eexists. split; [reflexivity|]. apply scale10_nonneg.
    specialize (Hnn []). by rewrite app_nil_r in Hnn. }
  destruct rest as [|c rest]; [exact Hplain|].
  destruct (Ascii.eqb c "."%char) eqn:Hdot.
  - apply Ascii.eqb_eq in Hdot as ->.
    destruct (Js.takeDigits rest) as [fp rest'].
    destruct fp; (eexists; split; [reflexivity|]); apply scale10_nonneg, Hnn.
  - destruct c as [[] [] [] [] [] [] [] []];
      try discriminate Hdot; exact Hplain.
Qed.

(** X6. An amount cell that begins with a digit passes the amount check
    whatever follows the number: the row is never refused as an invalid
    amount, and what is read from the cell is a number and is not below
    zero. *)
Theorem rowDefect_leading_digit
    (newDate : string -> Date) (headers : list string) (line : string)
    (c : ascii) (rest : string) :
  cell headers line "amount" = String c rest ->
  Js.isDigit c = true ->
  rowDefect newDate headers line <> Some BadAmount /\
  Js.isNaN (Js.parseFloat (String c rest)) = false /\
  negative (Js.parseFloat (String c rest)) = false.
Proof.
  intros Hcell Hdigit.
  assert (Hparse : exists q,
            Js.parseFloat (String c rest) = Js.Finite q /\ (0 <= q)%Q).
  { destruct (Js.takeDigits rest) as [ds rest'] eqn:Hrest.
    destruct c as [[] [] [] [] [] [] [] []]; try discriminate Hdigit;
      unfold Js.parseFloat; simpl Js.trimStart; cbv iota beta;
      (eapply parseUnsigned_digits;
       [simpl; rewrite Hrest; reflexivity | reflexivity]). }
  destruct Hparse as (q & Hq & Hpos). split; [|split].
  - unfold rowDefect.
    destruct (negb _); [discriminate|].
    destruct (negb _); [discriminate|].
    rewrite Hcell, Hq. simpl. by destruct (readType _).
  - by rewrite Hq.
  - rewrite Hq. unfold negative, Js.lt, Js.ofZ.
    destruct (q ?= inject_Z 0)%Q eqn:Hcmp; try reflexivity.
    apply Qlt_alt in Hcmp. change (inject_Z 0) with 0%Q in Hcmp. lra.
Qed.

Lemma rowDefect_leading_digit_witness :
  rowDefect Csv.isoDate ["date"; "description"; "amount"; "type"]
            "2024-01-06,Lunch,12abc,debit" <> Some BadAmount /\
  Js.isNaN (Js.parseFloat "12abc") = false /\
  negative (Js.parseFloat "12abc") = false.
Proof.
  apply (rowDefect_leading_digit Csv.isoDate
           ["date"; "description"; "amount"; "type"]
           "2024-01-06,Lunch,12abc,debit" "1"%char "2abc").
  - vm_compute. reflexivity.
  - reflexivity.
Defined.

(** ** Line endings *)

Lemma split_oneLine l : oneLine l = true -> Js.split "010"%char l = [l].
Proof.
  induction l as [|c l IH]; [reflexivity|]. simpl.
  intros [Hc Hl]%andb_true_iff. apply negb_true_iff in Hc.
  rewrite Hc, (IH Hl). reflexivity.
Qed.

Lemma split_line_feed l rest :
  oneLine l = true ->
  Js.split "010"%char (l +:+ String "010"%char rest)
  = l :: Js.split "010"%char rest.
Proof.
  induction l as [|c l IH]; simpl.
  - reflexivity.
  - intros [Hc Hl]%andb_true_iff. apply negb_true_iff in Hc.
    rewrite Hc, (IH Hl). reflexivity.
Qed.

Lemma split_unlines ls :
  ls <> [] -> Forall (fun l => oneLine l = true) ls ->
  Js.split "010"%char (unlines ls) = ls.
Proof.
  induction ls as [|l ls IH]; [done|]. intros _ Hall.
  inversion Hall as [|? ? Hl Hls]; subst.
  destruct ls as [|l' ls]; [by apply split_oneLine|].
  change (unlines (l :: l' :: ls))
    with (l +:+ String "010"%char (unlines (l' :: ls))).
  rewrite split_line_feed by assumption. by rewrite IH.
Qed.

Lemma oneLine_withCR l : oneLine l = true -> oneLine (withCR l) = true.
Proof.
  unfold withCR. induction l as [|c l IH]; [reflexivity|]. simpl.
  intros [Hc Hl]%andb_true_iff. by rewrite Hc, IH.
Qed.

Lemma trimEnd_withCR s : Js.trimEnd (withCR s) = Js.trimEnd s.
Proof.
  unfold withCR. induction s as [|c s IH]; [reflexivity|].
  simpl. by rewrite IH.
Qed.

Lemma trimStart_withCR s :
  Js.trimStart (withCR s)
  = match Js.trimStart s with
    | EmptyString => EmptyString
    | t => withCR t
    end.
Proof.
  unfold withCR. induction s as [|c s IH]; [reflexivity|].
  simpl. destruct (Js.isWhiteSpace c); [exact IH | reflexivity].
Qed.

Lemma trim_withCR s : Js.trim (withCR s) = Js.trim s.
Proof.
  unfold Js.trim. rewrite trimStart_withCR.
  destruct (Js.trimStart s) as [|c t]; [reflexivity|].
  apply trimEnd_withCR.
Qed.

(** Splitting at commas: a carriage return at the end of the line ends up
    at the end of the last cell. *)
Lemma split_withCR l :
  exists init last,
    Js.split ","%char l = init ++ [last] /\
    Js.split ","%char (withCR l) = init ++ [withCR last].
Proof.
  unfold withCR. induction l as [|c l (init & last & Hl & Hcr)].
  - by exists [], EmptyString.
  - simpl. rewrite Hl, Hcr. destruct (Ascii.eqb c ","%char).
    + by exists (EmptyString :: init), last.
    + destruct init as [|w init]; simpl.
      * by exists [], (String c last).
      * by exists (String c w :: init), last.
Qed.

Lemma cells_withCR (f : string -> string) l :
  List.map (fun x => f (Js.trim x)) (Js.split ","%char (withCR l))
  = List.map (fun x => f (Js.trim x)) (Js.split ","%char l).
Proof.
  destruct (split_withCR l) as (init & last & -> & ->).
  rewrite !map_app. simpl. by rewrite trim_withCR.
Qed.

Lemma headerNames_withCR l : Csv.headerNames (withCR l) = Csv.headerNames l.
Proof. apply (cells_withCR Js.toLowerCase). Qed.

Lemma parseRow_withCR newDate headers i l :
  Csv.parseRow newDate headers i (withCR l)
  = Csv.parseRow newDate headers i l.
Proof.
  unfold Csv.parseRow.
  pose proof (cells_withCR (fun x => x) l) as Hcells.
  rewrite !(map_ext (fun x => Js.trim x) Js.trim) in Hcells by done.
  by rewrite Hcells.
Qed.

Lemma parseRows_sameLine newDate headers rows rows' :
  Forall2 sameLine rows rows' ->
  forall i acc,
    Csv.parseRows newDate headers i rows' acc
    = Csv.parseRows newDate headers i rows acc.
Proof.
  induction 1 as [|l l' rows rows' Hl _ IH]; intros i acc; [reflexivity|].
  simpl. assert (Hrow : Csv.parseRow newDate headers i l'
                        = Csv.parseRow newDate headers i l).
  { destruct Hl as [-> | ->]; [reflexivity | apply parseRow_withCR]. }
  rewrite Hrow.
  destruct (Csv.parseRow newDate headers i l); [reflexivity | apply IH].
Qed.

Lemma filter_nonBlank_sameLine ls ls' :
  Forall2 sameLine ls ls' ->
  Forall2 sameLine
    (List.filter (fun line => Js.truthy (Js.trim line)) ls)
    (List.filter (fun line => Js.truthy (Js.trim line)) ls').
Proof.
  induction 1 as [|l l' ls ls' Hl _ IH]; [constructor|].
  simpl. assert (Htrim : Js.trim l' = Js.trim l).
  { destruct Hl as [-> | ->]; [reflexivity | apply trim_withCR]. }
  rewrite Htrim. destruct (Js.truthy (Js.trim l)); [by constructor | exact IH].
Qed.

(** X5. Windows line endings change nothing: a file some or all of whose
    lines end in a carriage return before the line feed decodes to the same
    records, or fails with the same error, as the file with bare line
    feeds. *)
Theorem parseCSV_ignores_carriage_returns
    (newDate : string -> Date) (ls ls' : list string) :
  Forall (fun l => oneLine l = true) ls ->
  Forall2 sameLine ls ls' ->
  Csv.parseCSV newDate (unlines ls') = Csv.parseCSV newDate (unlines ls).
Proof.
  intros Hall Hsame. destruct Hsame as [|l0 l0' ls0 ls0' H0 Hrest];
    [reflexivity|].
  assert (Hsame : Forall2 sameLine (l0 :: ls0) (l0' :: ls0'))
    by (by constructor).
  assert (Hall' : Forall (fun l => oneLine l = true) (l0' :: ls0')).
  { clear -Hall Hsame. induction Hsame as [|l l' ls ls' Hl _ IH];
      [constructor|].
    inversion Hall as [|? ? Hone Hones]; subst. constructor; [|by apply IH].
    destruct Hl as [-> | ->]; [assumption | by apply oneLine_withCR]. }
  pose proof (filter_nonBlank_sameLine _ _ Hsame) as Hlines.
  unfold Csv.parseCSV, Csv.nonBlankLines in *.
  rewrite !split_unlines by done.
  rewrite <- (Forall2_length _ _ _ Hlines).
  destruct (length _ <? 2)%nat; [reflexivity|].
  destruct Hlines as [|header header' rows rows' Hheader Hrows];
    [reflexivity|].
  assert (Hnames : Csv.headerNames header' = Csv.headerNames header).
  { destruct Hheader as [-> | ->]; [reflexivity | apply headerNames_withCR]. }
  rewrite Hnames. destruct (Csv.missingHeader _); [reflexivity|].
  by apply parseRows_sameLine.
Qed.

Lemma parseCSV_ignores_carriage_returns_witness :
  Csv.parseCSV Csv.isoDate (unlines sampleWindowsLines)
  = Csv.parseCSV Csv.isoDate
      (unlines ["date,description,amount,type";
                "2024-01-06,Swiggy order,-250.50,Debit"; ""]).
Proof.
  apply (parseCSV_ignores_carriage_returns Csv.isoDate
           ["date,description,amount,type";
            "2024-01-06,Swiggy order,-250.50,Debit"; ""]
           sampleWindowsLines).
  - repeat constructor.
  - repeat constructor; by right.
Defined.

(** ** Categories from descriptions *)

Lemma prefix_app needle rest : String.prefix needle (needle +:+ rest) = true.
Proof.
  induction needle as [|c needle IH]; simpl; [by destruct rest|].
  destruct (ascii_dec c c); [exact IH | done].
Qed.

Lemma includes_prefix hay needle :
  String.prefix needle hay = true -> Js.includes hay needle = true.
Proof. intros Hpre. destruct hay; cbn [Js.includes]; by rewrite Hpre. Qed.

Lemma includes_app before needle rest :
  Js.includes (before +:+ needle +:+ rest) needle = true.
Proof.
  induction before as [|c before IH].
  - change (EmptyString +:+ needle +:+ rest) with (needle +:+ rest).
    apply includes_prefix, prefix_app.
  - change (String c before +:+ needle +:+ rest)
      with (String c (before +:+ needle +:+ rest)).
    cbn [Js.includes]. rewrite IH. apply orb_true_r.
Qed.

(** X7. A bank record whose description holds a food keyword, anywhere and
    in any letter case, becomes a food expense, also when keywords of other
    categories stand beside it; like every imported expense it is tagged
    AUTO, not flagged as impulse, has no id yet, and keeps the description
    and the amount of the record. *)
Theorem bankRecordToExpense_food_first
    (newDate : string -> Date) (record : Csv.BankRecord)
    (before keyword rest : string) :
  keyword ∈ foodKeywords ->
  Js.toLowerCase (Csv.description record) = before +:+ keyword +:+ rest ->
  let e := Database.bankRecordToExpense newDate record in
  category e = food /\ source e = AUTO /\ isImpulse e = false /\
  id e = None /\ description e = Csv.description record /\
  amount e = Csv.amount record.
Proof.
  intros Hkey Hdesc e. split; [|by repeat split].
  pose proof (includes_app before keyword rest) as Hhas.
  rewrite <- Hdesc in Hhas.
  unfold e, Database.bankRecordToExpense. cbn [category].
  unfold foodKeywords in Hkey.
  repeat (apply elem_of_cons in Hkey as [-> | Hkey]);
    [..|by apply elem_of_nil in Hkey];
    rewrite Hhas; by rewrite ?orb_true_r.
Qed.

Lemma bankRecordToExpense_food_first_witness :
  let e :=
    Database.bankRecordToExpense Csv.isoDate
      (Csv.mkBankRecord "2024-01-06" "UBER EATS - Zomato order"
                        (Js.Finite 250) Csv.debit) in
  category e = food /\ source e = AUTO /\ isImpulse e = false /\
  id e = None /\ description e = "UBER EATS - Zomato order" /\
  amount e = Js.Finite 250.
Proof.
  apply (bankRecordToExpense_food_first Csv.isoDate
           (Csv.mkBankRecord "2024-01-06" "UBER EATS - Zomato order"
                             (Js.Finite 250) Csv.debit)
           "uber eats - " "zomato" " order").
  - apply (bool_decide_unpack _). vm_compute. reflexivity.
  - reflexivity.
Defined.

(** X8. A bank record whose description holds none of the keywords becomes
    an expense of the category other. *)
Theorem bankRecordToExpense_default_other
    (newDate : string -> Date) (record : Csv.BankRecord) :
  Forall (fun keyword =>
            Js.includes (Js.toLowerCase (Csv.description record)) keyword
            = false) allKeywords ->
  category (Database.bankRecordToExpense newDate record) = other.
Proof.
  intros Hnone. unfold allKeywords, foodKeywords in Hnone. simpl in Hnone.
  repeat match goal with
         | H : Forall _ (_ :: _) |- _ =>
             apply Forall_cons in H as [? H]
         end.
  unfold Database.bankRecordToExpense. cbn [category].
  repeat match goal with
         | H : Js.includes _ _ = false |- _ => rewrite H; clear H
         end.
  reflexivity.
Qed.

Lemma bankRecordToExpense_default_other_witness :
  category
    (Database.bankRecordToExpense Csv.isoDate
       (Csv.mkBankRecord "2024-01-06" "ATM withdrawal" (Js.Finite 2000)
                         Csv.debit))
  = other.
Proof.
  apply (bankRecordToExpense_default_other Csv.isoDate
           (Csv.mkBankRecord "2024-01-06" "ATM withdrawal" (Js.Finite 2000)
                             Csv.debit)).
  repeat constructor.
Defined.

(** ** Writing to the store *)

Section StoreMore.
Import Database.
Context {DB : Type} `{Firestore DB}.

Lemma chunkRefs_length chunk : forall db,
  length (chunkRefs chunk db).1 = length chunk.
Proof.
  induction chunk as [|e chunk IH]; intros db; [reflexivity|].
  simpl. destruct (autoId db) as [ref db1].
  specialize (IH db1). destruct (chunkRefs chunk db1) as [refs db2].
  simpl in *. by rewrite IH.
Qed.

Lemma addChunks_length rounds uid : forall remaining ids db out db',
  (length remaining <= rounds)%nat ->
  addChunks rounds uid remaining ids db = (Return out, db') ->
  length out = (length ids + length remaining)%nat.
Proof.
  induction rounds as [|rounds IH]; intros remaining ids db out db' Hfuel.
  - destruct remaining; [|simpl in Hfuel; lia].
    simpl. intros [= <- _]. simpl. lia.
  - destruct remaining as [|e remaining].
    + simpl. intros [= <- _]. simpl. lia.
    + cbn [addChunks].
      pose proof (chunkRefs_length (take MAX_BATCH (e :: remaining)) db)
        as Hrefs.
      destruct (chunkRefs (take MAX_BATCH (e :: remaining)) db)
        as [refs db1].
      destruct (commit uid refs db1) as [[msg|[]] db2]; [discriminate|].
      intros Hrec. apply IH in Hrec.
      * rewrite length_app, length_map, length_drop in Hrec.
        simpl in Hrefs. rewrite Hrefs, length_take in Hrec.
        unfold MAX_BATCH in *. cbn [length] in *. lia.
      * rewrite length_drop. unfold MAX_BATCH. cbn [length] in *. lia.
Qed.

End StoreMore.

(** X10. When [addExpenses] returns, it returns one id for each expense it
    was given: the loop over batches of 500 reaches every expense, for a
    list of any length and for any store. *)
Theorem addExpenses_one_id_each
    (DB : Type) (F : Database.Firestore DB)
    (expenses : list Expense) (db db' : DB) (ids : list string) :
  Database.addExpenses expenses db = (Return ids, db') ->
  length ids = length expenses.
Proof.
  unfold Database.addExpenses.
  destruct (Database.currentUser db); [|discriminate].
  intros Hadd. by apply addChunks_length in Hadd.
Qed.

Lemma addExpenses_one_id_each_witness :
  length ["doc7"; "doc8"]
  = length [coffee 3; coffee 9].
Proof.
  apply (addExpenses_one_id_each Database.MemoryStore _
           [coffee 3; coffee 9] sampleDb
           (Database.mkMemoryStore (Some "u1") 9
              (Database.docs sampleDb
               ++ [("doc7", ("u1", coffee 3)); ("doc8", ("u1", coffee 9))]))
           ["doc7"; "doc8"]).
  vm_compute. reflexivity.
Defined.

(** ** The import, for any number of rows *)

Section UploadMore.
Import CSVUpload Database.
Variable newDate : string -> Date.
Variable classifyExpense : Expense -> list Expense -> Flags.

Lemma convert_all existing records : forall acc calls,
  convert newDate classifyExpense existing records acc calls
  = (acc ++ List.map
              (fun r =>
                 withImpulse (bankRecordToExpense newDate r)
                   (impulse (classifyExpense (bankRecordToExpense newDate r)
                                             existing)))
              records,
     calls ++ List.map (bankRecordToExpense newDate) records).
Proof.
  induction records as [|r records IH]; intros acc calls; simpl.
  - by rewrite !app_nil_r.
  - rewrite IH. by rewrite <- !app_assoc.
Qed.

End UploadMore.

(** [expensesToAdd.map((exp, index) => ({ ...exp, id: ids[index] }))] once
    the store has returned an id for each expense. *)
Lemma withIds_shape (es : list Expense) : forall ids : list string,
  length ids = length es ->
  let l := imap (fun index exp => withId exp (ids !! index)) es in
  List.map description l = List.map description es /\
  List.map amount l = List.map amount es /\
  List.map source l = List.map source es /\
  Forall (fun e => is_Some (id e)) l.
Proof.
  induction es as [|e es IH]; intros ids Hlen.
  - repeat split. constructor.
  - destruct ids as [|i ids]; [discriminate Hlen|].
    injection Hlen as Hlen. cbv zeta. rewrite imap_cons.
    rewrite (imap_ext _ (fun index exp => withId exp (ids !! index)))
      by done.
    destruct (IH ids Hlen) as (Hd & Ha & Hs & Hi).
    cbn [List.map]. rewrite Hd, Ha, Hs.
    repeat split. constructor; [by eexists | assumption].
Qed.

(** What a successful run has handed over: the debit records, converted,
    with the ids of the store. *)
Lemma handleFileSelect_delivered
    (newDate : string -> Date) (classifyExpense : Expense -> list Expense -> Flags)
    (DB : Type) (F : Database.Firestore DB)
    (file : CSVUpload.File) (existingExpenses : option (list Expense))
    (c : CSVUpload.Component) (db db' : DB)
    (records : list Csv.BankRecord) (run : CSVUpload.Run)
    (newExpenses : list Expense) :
  Csv.parseCSV newDate (CSVUpload.text file) = Return records ->
  CSVUpload.handleFileSelect newDate classifyExpense (Some file)
                             existingExpenses c db = (run, db') ->
  CSVUpload.delivered run = Some newExpenses ->
  let debits := List.filter Csv.isDebit records in
  let converted :=
    List.map
      (fun r =>
         withImpulse (Database.bankRecordToExpense newDate r)
           (impulse
              (classifyExpense (Database.bankRecordToExpense newDate r)
                               (default [] existingExpenses))))
      debits in
  exists ids : list string,
    length ids = length converted /\
    newExpenses
    = imap (fun index exp => withId exp (ids !! index)) converted /\
    CSVUpload.classified run
    = List.map (Database.bankRecordToExpense newDate) debits.
Proof.
  intros Hparse Hrun Hdelivered debits converted.
  unfold CSVUpload.handleFileSelect in Hrun.
  destruct (negb _); [injection Hrun as <- _; discriminate Hdelivered|].
  unfold CSVUpload.importFile in Hrun. rewrite Hparse in Hrun.
  destruct (length records =? 0)%nat;
    [injection Hrun as <- _; discriminate Hdelivered|].
  fold debits in Hrun.
  destruct (length debits =? 0)%nat;
    [injection Hrun as <- _; discriminate Hdelivered|].
  rewrite convert_all in Hrun. simpl in Hrun. fold converted in Hrun.
  destruct (Database.addExpenses converted db) as [[msg|ids] db1] eqn:Hadd;
    injection Hrun as <- _; [discriminate Hdelivered|].
  unfold Database.addExpenses in Hadd.
  destruct (Database.currentUser db); [|discriminate].
  apply addChunks_length in Hadd; [|done].
  simpl in Hdelivered. injection Hdelivered as <-.
  exists ids. by repeat split.
Qed.

(** X9. An import that succeeds hands over exactly one expense per debit
    record, in the order of the file: each carries the description and the
    amount of its record, the tag AUTO and the id the store returned at its
    position; the classifier saw exactly the debit records. *)
Theorem handleFileSelect_one_expense_per_debit
    (newDate : string -> Date) (classifyExpense : Expense -> list Expense -> Flags)
    (DB : Type) (F : Database.Firestore DB)
    (file : CSVUpload.File) (existingExpenses : option (list Expense))
    (c : CSVUpload.Component) (db db' : DB)
    (records : list Csv.BankRecord) (run : CSVUpload.Run)
    (newExpenses : list Expense) :
  Csv.parseCSV newDate (CSVUpload.text file) = Return records ->
  CSVUpload.handleFileSelect newDate classifyExpense (Some file)
                             existingExpenses c db = (run, db') ->
  CSVUpload.delivered run = Some newExpenses ->
  let debits := List.filter Csv.isDebit records in
  List.map description newExpenses = List.map Csv.description debits /\
  List.map amount newExpenses = List.map Csv.amount debits /\
  Forall (fun e => source e = AUTO) newExpenses /\
  Forall (fun e => is_Some (id e)) newExpenses /\
  CSVUpload.classified run
  = List.map (Database.bankRecordToExpense newDate) debits.
Proof.
  intros Hparse Hrun Hdelivered debits.
  destruct (handleFileSelect_delivered newDate classifyExpense DB F file
              existingExpenses c db db' records run newExpenses
              Hparse Hrun Hdelivered)
    as (ids & Hlen & -> & Hcalls).
  destruct (withIds_shape _ ids Hlen) as (Hd & Ha & Hs & Hi).
  cbv zeta in Hd, Ha, Hs, Hi.
  rewrite Hd, Ha. rewrite !map_map. simpl.
  repeat split; try assumption.
  apply Forall_forall. intros e He%list_elem_of_In.
  apply (in_map source) in He. rewrite Hs, map_map in He. simpl in He.
  apply in_map_iff in He as (r & Hr & _). by symmetry.
Qed.

Lemma handleFileSelect_one_expense_per_debit_witness :
  let debits :=
    List.filter Csv.isDebit
      [Csv.mkBankRecord "2024-01-05" "Salary" (Js.Finite 1000) Csv.credit;
       Csv.mkBankRecord "2024-01-06" "Swiggy order"
                        (Js.Finite (Qabs (-250.50))) Csv.debit] in
  let newExpenses :=
    [mkExpense (Some "doc0") "Swiggy order" (Js.Finite (Qabs (-250.50))) food
               (DateOf 2024 0 6) false AUTO] in
  List.map description newExpenses = List.map Csv.description debits /\
  List.map amount newExpenses = List.map Csv.amount debits /\
  Forall (fun e => source e = AUTO) newExpenses /\
  Forall (fun e => is_Some (id e)) newExpenses /\
  [mkExpense None "Swiggy order" (Js.Finite (Qabs (-250.50))) food
             (DateOf 2024 0 6) false AUTO]
  = List.map (Database.bankRecordToExpense Csv.isoDate) debits.
Proof.
  apply (handleFileSelect_one_expense_per_debit Csv.isoDate
           Classifier.classify Database.MemoryStore _ sampleStatement None
           freshComponent sampleStore
           (Database.mkMemoryStore (Some "u1") 1
              [("doc0",
                ("u1", mkExpense None "Swiggy order"
                                 (Js.Finite (Qabs (-250.50))) food
                                 (DateOf 2024 0 6) false AUTO))])
           [Csv.mkBankRecord "2024-01-05" "Salary" (Js.Finite 1000) Csv.credit;
            Csv.mkBankRecord "2024-01-06" "Swiggy order"
                             (Js.Finite (Qabs (-250.50))) Csv.debit]
           (CSVUpload.mkRun
              (CSVUpload.mkComponent false CSVUpload.success "")
              [mkToast successToast "CSV uploaded successfully"]
              [mkExpense None "Swiggy order" (Js.Finite (Qabs (-250.50))) food
                         (DateOf 2024 0 6) false AUTO]
              (Some [mkExpense (Some "doc0") "Swiggy order"
                               (Js.Finite (Qabs (-250.50))) food
                               (DateOf 2024 0 6) false AUTO])
              true)).
  - vm_compute. reflexivity.
  - vm_compute. reflexivity.
  - reflexivity.
Defined.

(** ** Comparing and adding numbers *)

Lemma lt_irrefl x : Js.lt x x = false.
Proof.
  destruct x as [|[]|q]; try reflexivity.
  unfold Js.lt. by rewrite (proj1 (Qeq_alt q q) (Qeq_refl q)).
Qed.

Lemma lt_asym x y : Js.lt x y = true -> Js.lt y x = false.
Proof.
  destruct x as [|[]|p], y as [|[]|q]; simpl; try done.
  destruct (p ?= q)%Q eqn:Hpq; try discriminate. intros _.
  apply Qlt_alt in Hpq.
  destruct (q ?= p)%Q eqn:Hqp; try reflexivity.
  apply Qlt_alt in Hqp. lra.
Qed.

Lemma max_zero_not_negative x : negative (Js.Math_max (Js.ofZ 0) x) = false.
Proof.
  destruct x as [|[]|q]; try reflexivity.
  unfold negative, Js.Math_max, Js.ofZ.
  destruct (Js.lt (Js.Finite (inject_Z 0)) (Js.Finite q)) eqn:Hlt.
  - by apply lt_asym.
  - apply lt_irrefl.
Qed.

Lemma foldl_add_finite (es : list Expense) : forall a : Q,
  Forall finiteAmount es ->
  foldl (fun s e => Js.add s (amount e)) (Js.Finite a) es
  = Js.Finite (foldl (fun s e => (s + toQ (amount e))%Q) a es).
Proof.
  induction es as [|e es IH]; intros a Hall; [reflexivity|].
  inversion Hall as [|? ? [q Hq] Hes]; subst. simpl.
  rewrite Hq. simpl. by rewrite IH.
Qed.

Lemma foldl_Qplus_shift (es : list Expense) : forall a : Q,
  (foldl (fun s e => s + toQ (amount e)) a es
   == a + foldl (fun s e => s + toQ (amount e)) 0 es)%Q.
Proof.
  induction es as [|e es IH]; intros a; simpl; [lra|].
  rewrite (IH (a + _)%Q), (IH (0 + _)%Q). lra.
Qed.

Lemma filter_finite (P : Expense -> bool) es :
  Forall finiteAmount es -> Forall finiteAmount (List.filter P es).
Proof.
  induction 1 as [|e es He _ IH]; simpl; [constructor|].
  destruct (P e); [by constructor | assumption].
Qed.

(** ** Adding an expense *)

Section AddMore.
Import Index Database.
Variable Storage : Type.
Variable classifyExpense : Expense -> list Expense -> Flags.
Variable computeCategoryCap :
  list Expense -> list HabitAlert -> Category -> Date -> option Js.number.
Variable recomputeAlerts : list Expense -> list HabitAlert.
Variable reconcileSavingsLedger :
  string -> list Expense -> option Date -> Storage -> SavingsSummary * Storage.
Context {DB : Type} `{Firestore DB}.

Lemma enforceCap_never_raises now newExpense s finalAmount notice :
  enforceCap computeCategoryCap now newExpense s
  = Proceed finalAmount notice ->
  Js.gt finalAmount (Form.amount newExpense) = false.
Proof.
  unfold enforceCap, Js.gt.
  destruct (applySavings s);
    [|intros [= <- _]; apply lt_irrefl].
  destruct (computeCategoryCap _ _ _ _) as [cap|];
    [|intros [= <- _]; apply lt_irrefl].
  destruct (Js.le _ _); [discriminate|].
  destruct (Js.lt (remainingUnder cap now (Form.category newExpense)
                                  (expenses s))
                  (Form.amount newExpense)) eqn:Hgt;
    intros [= <- _]; [by apply lt_asym | apply lt_irrefl].
Qed.

(** Either the list of expenses stays, or the handler went through the
    store and put the new expense on top. *)
Lemma handleAddExpense_cases userKey now newExpense s ls db :
  let after :=
    handleAddExpense Storage classifyExpense computeCategoryCap
      recomputeAlerts reconcileSavingsLedger userKey now newExpense s ls db in
  (expenses after.1.1 = expenses s /\
   alerts after.1.1 = alerts s /\
   savedSummary after.1.1 = savedSummary s /\
   after.1.2 = ls) \/
  (exists finalAmount notice id0,
     enforceCap computeCategoryCap now newExpense s
     = Proceed finalAmount notice /\
     let base := mkExpense None (Form.description newExpense) finalAmount
                           (Form.category newExpense) now false MANUAL in
     let flagged :=
       withImpulse base (impulse (classifyExpense base (expenses s))) in
     addExpense flagged db = (Return id0, after.2) /\
     expenses after.1.1 = withId flagged (Some id0) :: expenses s /\
     alerts after.1.1 = recomputeAlerts (withId flagged (Some id0) :: expenses s) /\
     (savedSummary after.1.1, after.1.2)
     = reconcileSavingsLedger userKey
         (withId flagged (Some id0) :: expenses s) (Some now) ls).
Proof.
  intros after. unfold after, handleAddExpense.
  rewrite enforceCap_closeModal.
  destruct (enforceCap computeCategoryCap now newExpense s)
    as [|finalAmount notice] eqn:Hcap; [by left|].
  simpl.
  destruct (addExpense _ db) as [[msg|id0] db'] eqn:Hstore; [by left|].
  destruct (reconcileSavingsLedger _ _ _ _) as [summary ls'] eqn:Hrec.
  right. exists finalAmount, notice, id0. simpl. by repeat split.
Qed.

End AddMore.

(** X12. The handler adds at most one expense, on top of the list, and
    touches no other: an added expense is MANUAL, dated now, carries the
    requested description and category and the id the store returned, and
    its amount is never above the amount requested. *)
Theorem handleAddExpense_adds_on_top
    (Storage : Type) (classifyExpense : Expense -> list Expense -> Flags)
    (computeCategoryCap :
       list Expense -> list HabitAlert -> Category -> Date
       -> option Js.number)
    (recomputeAlerts : list Expense -> list HabitAlert)
    (reconcileSavingsLedger :
       string -> list Expense -> option Date -> Storage
       -> SavingsSummary * Storage)
    (DB : Type) (F : Database.Firestore DB)
    (userKey : string) (now : Date) (request : Index.NewExpense)
    (s : Index.Dashboard) (ls : Storage) (db : DB) :
  let after :=
    Index.handleAddExpense Storage classifyExpense computeCategoryCap
      recomputeAlerts reconcileSavingsLedger userKey now request s ls db in
  Index.expenses after.1.1 = Index.expenses s \/
  exists e,
    Index.expenses after.1.1 = e :: Index.expenses s /\
    source e = MANUAL /\ date e = now /\ is_Some (id e) /\
    description e = Index.Form.description request /\
    category e = Index.Form.category request /\
    Js.gt (amount e) (Index.Form.amount request) = false.
Proof.
  intros after.
  destruct (handleAddExpense_cases Storage classifyExpense computeCategoryCap
              recomputeAlerts reconcileSavingsLedger userKey now request
              s ls db)
    as [(Hsame & _) | (finalAmount & notice & id0 & Hcap & _ & Hexp & _)].
  - by left.
  - right. eexists. split; [exact Hexp|]. simpl.
    repeat split; try by eexists.
    by apply enforceCap_never_raises in Hcap.
Qed.

(** X13. With the toggle off the cap is not consulted: the handler does the
    same whatever [computeCategoryCap] would answer, and an expense it adds
    carries the amount as requested. *)
Theorem handleAddExpense_toggle_off
    (Storage : Type) (classifyExpense : Expense -> list Expense -> Flags)
    (computeCategoryCap computeCategoryCap' :
       list Expense -> list HabitAlert -> Category -> Date
       -> option Js.number)
    (recomputeAlerts : list Expense -> list HabitAlert)
    (reconcileSavingsLedger :
       string -> list Expense -> option Date -> Storage
       -> SavingsSummary * Storage)
    (DB : Type) (F : Database.Firestore DB)
    (userKey : string) (now : Date) (request : Index.NewExpense)
    (s : Index.Dashboard) (ls : Storage) (db : DB) :
  Index.applySavings s = false ->
  let after :=
    Index.handleAddExpense Storage classifyExpense computeCategoryCap
      recomputeAlerts reconcileSavingsLedger userKey now request s ls db in
  Index.handleAddExpense Storage classifyExpense computeCategoryCap'
    recomputeAlerts reconcileSavingsLedger userKey now request s ls db
  = after /\
  (Index.expenses after.1.1 = Index.expenses s \/
   exists e, Index.expenses after.1.1 = e :: Index.expenses s /\
             amount e = Index.Form.amount request).
Proof.
  intros Hoff after.
  assert (Hcap : forall cap,
            Index.enforceCap cap now request s
            = Index.Proceed (Index.Form.amount request) []).
  { intros cap. unfold Index.enforceCap. by rewrite Hoff. }
  split.
  - unfold after, Index.handleAddExpense.
    by rewrite !enforceCap_closeModal, !Hcap.
  - destruct (handleAddExpense_cases Storage classifyExpense
                computeCategoryCap recomputeAlerts reconcileSavingsLedger
                userKey now request s ls db)
      as [(Hsame & _) | (finalAmount & notice & id0 & Hc & _ & Hexp & _)].
    + by left.
    + right. rewrite Hcap in Hc. injection Hc as <- <-.
      eexists. split; [exact Hexp | reflexivity].
Qed.

Lemma handleAddExpense_toggle_off_witness :
  let after :=
    Index.handleAddExpense _ Classifier.classify foodCap (fun _ => [])
      loggingLedger "guest" (january 20)
      (Index.Form.mkNewExpense "Lunch" (Js.ofZ 100) food)
      uncappedDashboard [] sampleDb in
  Index.handleAddExpense _ Classifier.classify (fun _ _ _ _ => None)
    (fun _ => []) loggingLedger "guest" (january 20)
    (Index.Form.mkNewExpense "Lunch" (Js.ofZ 100) food)
    uncappedDashboard [] sampleDb
  = after /\
  (Index.expenses after.1.1 = Index.expenses uncappedDashboard \/
   exists e, Index.expenses after.1.1 = e :: Index.expenses uncappedDashboard
             /\ amount e = Js.ofZ 100).
Proof.
  apply (handleAddExpense_toggle_off _ Classifier.classify foodCap
           (fun _ _ _ _ => None) (fun _ => []) loggingLedger
           Database.MemoryStore _ "guest" (january 20)
           (Index.Form.mkNewExpense "Lunch" (Js.ofZ 100) food)
           uncappedDashboard [] sampleDb).
  reflexivity.
Defined.

(** X11. Under a cap the handler adds within the room left: with the
    toggle on and a cap for the category, an expense is added only when the
    room the handler computes, [Math.max(0, cap - monthTotal)], is not at
    or below zero; the amount stored is the requested amount when that is
    not above the room and the room itself otherwise, so it is never above
    the room. *)
Theorem handleAddExpense_within_room
    (Storage : Type) (classifyExpense : Expense -> list Expense -> Flags)
    (computeCategoryCap :
       list Expense -> list HabitAlert -> Category -> Date
       -> option Js.number)
    (recomputeAlerts : list Expense -> list HabitAlert)
    (reconcileSavingsLedger :
       string -> list Expense -> option Date -> Storage
       -> SavingsSummary * Storage)
    (DB : Type) (F : Database.Firestore DB)
    (userKey : string) (now : Date) (request : Index.NewExpense)
    (s : Index.Dashboard) (ls : Storage) (db : DB) (cap : Js.number) :
  Index.applySavings s = true ->
  computeCategoryCap (Index.expenses s) (Index.badAlerts s)
                     (Index.Form.category request) now
  = Some cap ->
  let remaining :=
    Index.remainingUnder cap now (Index.Form.category request)
                         (Index.expenses s) in
  let after :=
    Index.handleAddExpense Storage classifyExpense computeCategoryCap
      recomputeAlerts reconcileSavingsLedger userKey now request s ls db in
  Index.expenses after.1.1 <> Index.expenses s ->
  Js.le remaining (Js.ofZ 0) = false /\
  exists e,
    Index.expenses after.1.1 = e :: Index.expenses s /\
    amount e = (if Js.gt (Index.Form.amount request) remaining
                then remaining else Index.Form.amount request) /\
    Js.gt (amount e) remaining = false.
Proof.
  intros Hon Hcap remaining after Hadded.
  destruct (handleAddExpense_cases Storage classifyExpense computeCategoryCap
              recomputeAlerts reconcileSavingsLedger userKey now request
              s ls db)
    as [(Hsame & _) | (finalAmount & notice & id0 & Hverdict & _ & Hexp & _)];
    [done|].
  fold after in Hexp.
  unfold Index.enforceCap in Hverdict. rewrite Hon, Hcap in Hverdict.
  fold remaining in Hverdict.
  destruct (Js.le remaining (Js.ofZ 0)); [discriminate|].
  split; [reflexivity|].
  eexists. split; [exact Hexp|]. cbn [amount withId withImpulse].
  destruct (Js.gt (Index.Form.amount request) remaining) eqn:Hgt;
    injection Hverdict as <- _; (split; [reflexivity|]).
  - apply lt_irrefl.
  - exact Hgt.
Qed.

Lemma handleAddExpense_within_room_witness :
  let remaining :=
    Index.remainingUnder (Js.ofZ 500) (january 20) food
                         (Index.expenses sampleDashboard) in
  let after :=
    Index.handleAddExpense _ Classifier.classify foodCap (fun _ => [])
      loggingLedger "guest" (january 20)
      (Index.Form.mkNewExpense "Lunch" (Js.ofZ 100) food)
      sampleDashboard [] sampleDb in
  Js.le remaining (Js.ofZ 0) = false /\
  exists e,
    Index.expenses after.1.1 = e :: Index.expenses sampleDashboard /\
    amount e = (if Js.gt (Js.ofZ 100) remaining
                then remaining else Js.ofZ 100) /\
    Js.gt (amount e) remaining = false.
Proof.
  apply (handleAddExpense_within_room _ Classifier.classify foodCap
           (fun _ => []) loggingLedger Database.MemoryStore _
           "guest" (january 20)
           (Index.Form.mkNewExpense "Lunch" (Js.ofZ 100) food)
           sampleDashboard [] sampleDb (Js.ofZ 500)).
  - reflexivity.
  - reflexivity.
  - vm_compute. discriminate.
Defined.

(** ** Nobody signed in *)

(** X14. With nobody signed in, adding and deleting change nothing: the
    expenses, the alerts, the saved summary, the ledger and the store stay
    as they were, and only a toast is shown. *)
Theorem handlers_signed_out
    (Storage : Type) (classifyExpense : Expense -> list Expense -> Flags)
    (computeCategoryCap :
       list Expense -> list HabitAlert -> Category -> Date
       -> option Js.number)
    (recomputeAlerts : list Expense -> list HabitAlert)
    (reconcileSavingsLedger :
       string -> list Expense -> option Date -> Storage
       -> SavingsSummary * Storage)
    (DB : Type) (F : Database.Firestore DB)
    (userKey : string) (now : Date) (request : Index.NewExpense)
    (id0 : string) (s : Index.Dashboard) (ls : Storage) (db : DB) :
  Database.currentUser db = None ->
  let added :=
    Index.handleAddExpense Storage classifyExpense computeCategoryCap
      recomputeAlerts reconcileSavingsLedger userKey now request s ls db in
  let deleted :=
    Index.handleDeleteExpense Storage recomputeAlerts reconcileSavingsLedger
      userKey id0 s ls db in
  (Index.expenses added.1.1 = Index.expenses s /\
   Index.alerts added.1.1 = Index.alerts s /\
   Index.savedSummary added.1.1 = Index.savedSummary s /\
   added.1.2 = ls /\ added.2 = db /\
   Index.isGlobalLoading added.1.1 = false) /\
  (Index.expenses deleted.1.1 = Index.expenses s /\
   Index.alerts deleted.1.1 = Index.alerts s /\
   Index.savedSummary deleted.1.1 = Index.savedSummary s /\
   deleted.1.2 = ls /\ deleted.2 = db).
Proof.
  intros Hout added deleted. split.
  - unfold added, Index.handleAddExpense.
    destruct (Index.enforceCap _ _ _ _); [by repeat split|].
    unfold Database.addExpense. rewrite Hout. by repeat split.
  - unfold deleted, Index.handleDeleteExpense.
    destruct (List.find _ _) as [target|]; [|by repeat split].
    destruct (negb _); [by repeat split|].
    unfold Database.deleteExpense. rewrite Hout. by repeat split.
Qed.

Lemma handlers_signed_out_witness :
  let added :=
    Index.handleAddExpense _ Classifier.classify foodCap (fun _ => [])
      loggingLedger "guest" (january 20)
      (Index.Form.mkNewExpense "Lunch" (Js.ofZ 100) food)
      sampleDashboard [] signedOutDb in
  let deleted :=
    Index.handleDeleteExpense _ (fun _ => []) loggingLedger
      "guest" "a1" sampleDashboard [] signedOutDb in
  (Index.expenses added.1.1 = Index.expenses sampleDashboard /\
   Index.alerts added.1.1 = Index.alerts sampleDashboard /\
   Index.savedSummary added.1.1 = Index.savedSummary sampleDashboard /\
   added.1.2 = [] /\ added.2 = signedOutDb /\
   Index.isGlobalLoading added.1.1 = false) /\
  (Index.expenses deleted.1.1 = Index.expenses sampleDashboard /\
   Index.alerts deleted.1.1 = Index.alerts sampleDashboard /\
   Index.savedSummary deleted.1.1 = Index.savedSummary sampleDashboard /\
   deleted.1.2 = [] /\ deleted.2 = signedOutDb).
Proof.
  apply (handlers_signed_out _ Classifier.classify foodCap (fun _ => [])
           loggingLedger Database.MemoryStore _ "guest" (january 20)
           (Index.Form.mkNewExpense "Lunch" (Js.ofZ 100) food) "a1"
           sampleDashboard [] signedOutDb).
  reflexivity.
Defined.

(** ** Deleting an expense *)

Section DeleteMore.
Import Index Database.
Variable Storage : Type.
Variable recomputeAlerts : list Expense -> list HabitAlert.
Variable reconcileSavingsLedger :
  string -> list Expense -> option Date -> Storage -> SavingsSummary * Storage.
Context {DB : Type} `{Firestore DB}.

Lemma other_ids id0 (before : list Expense) target after :
  NoDup (omap id (before ++ target :: after)) ->
  id target = Some id0 ->
  Forall (fun e => id e <> Some id0) (before ++ after).
Proof.
  intros Hnd Hid. rewrite omap_app in Hnd. simpl in Hnd.
  rewrite Hid in Hnd. simpl in Hnd.
  apply NoDup_app in Hnd as (_ & Hcross & Hright).
  apply NoDup_cons in Hright as [Hfresh _].
  apply Forall_app. split; apply Forall_forall; intros e He Heq.
  - apply (Hcross id0); [|by left].
    apply list_elem_of_omap. by exists e.
  - apply Hfresh. apply list_elem_of_omap. by exists e.
Qed.

Lemma find_absent id0 (es : list Expense) :
  Forall (fun e => id e <> Some id0) es ->
  List.find (fun e => bool_decide (id e = Some id0)) es = None.
Proof.
  induction 1 as [|e es He _ IH]; [reflexivity|].
  simpl. by rewrite bool_decide_eq_false_2.
Qed.

Lemma filter_absent id0 (es : list Expense) :
  Forall (fun e => id e <> Some id0) es ->
  List.filter (fun e => negb (bool_decide (id e = Some id0))) es = es.
Proof.
  induction 1 as [|e es He _ IH]; [reflexivity|].
  simpl. rewrite bool_decide_eq_false_2 by assumption. simpl. by rewrite IH.
Qed.

Lemma find_target id0 (before : list Expense) target after :
  Forall (fun e => id e <> Some id0) before ->
  id target = Some id0 ->
  List.find (fun e => bool_decide (id e = Some id0))
            (before ++ target :: after) = Some target.
Proof.
  induction 1 as [|e es He _ IH]; intros Hid; simpl.
  - by rewrite bool_decide_eq_true_2.
  - rewrite bool_decide_eq_false_2 by assumption. by apply IH.
Qed.

(** A delete that goes through: what it leaves. *)
Lemma handleDeleteExpense_accepted userKey id0 s ls db db'
    (before : list Expense) target after :
  expenses s = before ++ target :: after ->
  id target = Some id0 ->
  source target = MANUAL ->
  NoDup (omap id (expenses s)) ->
  deleteExpense id0 db = (Return tt, db') ->
  handleDeleteExpense Storage recomputeAlerts reconcileSavingsLedger
                      userKey id0 s ls db
  = (mkDashboard (before ++ after) (recomputeAlerts (before ++ after))
       (reconcileSavingsLedger userKey (before ++ after) None ls).1
       (applySavings s) (isModalOpen s) (isGlobalLoading s)
       (toasts s ++ [mkToast plainToast "Expense deleted"]),
     (reconcileSavingsLedger userKey (before ++ after) None ls).2,
     db').
Proof.
  intros Hlist Hid Hsrc Hnd Hstore.
  rewrite Hlist in Hnd.
  pose proof (other_ids _ _ _ _ Hnd Hid) as Hothers.
  apply Forall_app in Hothers as [Hbefore Hafter].
  unfold handleDeleteExpense.
  rewrite Hlist, (find_target _ _ _ _ Hbefore Hid), Hsrc. simpl.
  rewrite Hstore.
  rewrite List.filter_app. simpl.
  rewrite bool_decide_eq_true_2 by assumption.
  simpl. rewrite !filter_absent by assumption.
  by destruct (reconcileSavingsLedger _ _ _ _) as [summary ls'].
Qed.

End DeleteMore.

(** X15. Deleting removes the target and nothing else: for a MANUAL expense
    of the list, with the assigned ids pairwise distinct and a store that
    accepts, the list afterwards is the list without that expense, in the
    same order, and alerts and saved summary are rebuilt from it. *)
Theorem handleDeleteExpense_removes_target
    (Storage : Type) (recomputeAlerts : list Expense -> list HabitAlert)
    (reconcileSavingsLedger :
       string -> list Expense -> option Date -> Storage
       -> SavingsSummary * Storage)
    (DB : Type) (F : Database.Firestore DB)
    (userKey id0 : string) (s : Index.Dashboard) (ls : Storage) (db db' : DB)
    (before : list Expense) (target : Expense) (after : list Expense) :
  Index.expenses s = before ++ target :: after ->
  id target = Some id0 ->
  source target = MANUAL ->
  NoDup (omap id (Index.expenses s)) ->
  Database.deleteExpense id0 db = (Return tt, db') ->
  let result :=
    Index.handleDeleteExpense Storage recomputeAlerts reconcileSavingsLedger
                              userKey id0 s ls db in
  Index.expenses result.1.1 = before ++ after /\
  Index.alerts result.1.1 = recomputeAlerts (before ++ after) /\
  (Index.savedSummary result.1.1, result.1.2)
  = reconcileSavingsLedger userKey (before ++ after) None ls /\
  result.2 = db'.
Proof.
  intros Hlist Hid Hsrc Hnd Hstore result. unfold result.
  rewrite (handleDeleteExpense_accepted Storage recomputeAlerts
             reconcileSavingsLedger userKey id0 s ls db db'
             before target after Hlist Hid Hsrc Hnd Hstore).
  cbn [fst snd Index.expenses Index.alerts Index.savedSummary].
  repeat split. by destruct (reconcileSavingsLedger _ _ _ _).
Qed.

Lemma handleDeleteExpense_removes_target_witness :
  let result :=
    Index.handleDeleteExpense _ (fun _ => []) loggingLedger
                              "guest" "a1" sampleDashboard [] sampleDb in
  Index.expenses result.1.1
  = [] ++ [mkExpense (Some "b2") "Swiggy order" (Js.ofZ 120) food
                     (DateOf 2023 11 30) false AUTO] /\
  Index.alerts result.1.1 = [] /\
  (Index.savedSummary result.1.1, result.1.2)
  = loggingLedger "guest"
      ([] ++ [mkExpense (Some "b2") "Swiggy order" (Js.ofZ 120) food
                        (DateOf 2023 11 30) false AUTO]) None [] /\
  result.2
  = Database.mkMemoryStore (Some "u1") 7
      [("b2", ("u1", mkExpense None "Swiggy order" (Js.ofZ 120) food
                               (DateOf 2023 11 30) false AUTO))].
Proof.
  apply (handleDeleteExpense_removes_target _ (fun _ => []) loggingLedger
           Database.MemoryStore _ "guest" "a1" sampleDashboard [] sampleDb
           _ []
           (mkExpense (Some "a1") "Dinner" (Js.ofZ 450) food (january 3)
                      false MANUAL)
           [mkExpense (Some "b2") "Swiggy order" (Js.ofZ 120) food
                      (DateOf 2023 11 30) false AUTO]).
  - reflexivity.
  - reflexivity.
  - reflexivity.
  - apply (bool_decide_unpack _). vm_compute. reflexivity.
  - vm_compute. reflexivity.
Defined.

(** X16. Deleting twice is deleting once: after a delete that went through,
    a second request for the same id finds no target and changes nothing,
    whatever the store would answer. *)
Theorem handleDeleteExpense_twice
    (Storage : Type) (recomputeAlerts : list Expense -> list HabitAlert)
    (reconcileSavingsLedger :
       string -> list Expense -> option Date -> Storage
       -> SavingsSummary * Storage)
    (DB : Type) (F : Database.Firestore DB)
    (userKey id0 : string) (s : Index.Dashboard) (ls : Storage) (db db' : DB)
    (before : list Expense) (target : Expense) (after : list Expense) :
  Index.expenses s = before ++ target :: after ->
  id target = Some id0 ->
  source target = MANUAL ->
  NoDup (omap id (Index.expenses s)) ->
  Database.deleteExpense id0 db = (Return tt, db') ->
  let once :=
    Index.handleDeleteExpense Storage recomputeAlerts reconcileSavingsLedger
                              userKey id0 s ls db in
  Index.handleDeleteExpense Storage recomputeAlerts reconcileSavingsLedger
                            userKey id0 once.1.1 once.1.2 once.2
  = once.
Proof.
  intros Hlist Hid Hsrc Hnd Hstore once. unfold once.
  rewrite (handleDeleteExpense_accepted Storage recomputeAlerts
             reconcileSavingsLedger userKey id0 s ls db db'
             before target after Hlist Hid Hsrc Hnd Hstore).
  rewrite Hlist in Hnd. pose proof (other_ids _ _ _ _ Hnd Hid) as Hothers.
  unfold Index.handleDeleteExpense.
  cbn [fst snd Index.expenses].
  by rewrite (find_absent _ _ Hothers).
Qed.

Lemma handleDeleteExpense_twice_witness :
  let once :=
    Index.handleDeleteExpense _ (fun _ => []) loggingLedger
                              "guest" "a1" sampleDashboard [] sampleDb in
  Index.handleDeleteExpense _ (fun _ => []) loggingLedger
                            "guest" "a1" once.1.1 once.1.2 once.2
  = once.
Proof.
  apply (handleDeleteExpense_twice _ (fun _ => []) loggingLedger
           Database.MemoryStore _ "guest" "a1" sampleDashboard [] sampleDb
           (Database.mkMemoryStore (Some "u1") 7
              [("b2", ("u1", mkExpense None "Swiggy order" (Js.ofZ 120) food
                                       (DateOf 2023 11 30) false AUTO))])
           []
           (mkExpense (Some "a1") "Dinner" (Js.ofZ 450) food (january 3)
                      false MANUAL)
           [mkExpense (Some "b2") "Swiggy order" (Js.ofZ 120) food
                      (DateOf 2023 11 30) false AUTO]).
  - reflexivity.
  - reflexivity.
  - reflexivity.
  - apply (bool_decide_unpack _). vm_compute. reflexivity.
  - vm_compute. reflexivity.
Defined.

(** ** Alerts and totals on the dashboard *)

(** X17. Dismissing an alert is transient: it removes the alerts of that id
    from the list shown, keeps the others, the expenses and the saved
    summary, and the next import rebuilds the alerts from the expenses
    alone, the same with or without the dismissal. *)
Theorem handleDismissAlert_transient
    (Storage : Type) (recomputeAlerts : list Expense -> list HabitAlert)
    (reconcileSavingsLedger :
       string -> list Expense -> option Date -> Storage
       -> SavingsSummary * Storage)
    (userKey id0 : string) (newExpenses : list Expense)
    (s : Index.Dashboard) (ls : Storage) :
  let dismissed := IndexView.handleDismissAlert id0 s in
  (forall a, In a (Index.alerts dismissed)
             <-> In a (Index.alerts s) /\ Alert.id a <> id0) /\
  Index.expenses dismissed = Index.expenses s /\
  Index.savedSummary dismissed = Index.savedSummary s /\
  Index.alerts
    (Index.handleCSVUploadSuccess Storage recomputeAlerts
       reconcileSavingsLedger userKey newExpenses dismissed ls).1
  = Index.alerts
      (Index.handleCSVUploadSuccess Storage recomputeAlerts
         reconcileSavingsLedger userKey newExpenses s ls).1 /\
  Index.alerts
    (Index.handleCSVUploadSuccess Storage recomputeAlerts
       reconcileSavingsLedger userKey newExpenses dismissed ls).1
  = recomputeAlerts (newExpenses ++ Index.expenses s).
Proof.
  intros dismissed. split; [|split; [reflexivity|split; [reflexivity|]]].
  - intros a. unfold dismissed, IndexView.handleDismissAlert. simpl.
    rewrite filter_In, negb_true_iff. split; intros [Hin Hid]; split;
      try assumption.
    + intros Heq. apply String.eqb_neq in Hid. contradiction.
    + by apply String.eqb_neq.
  - unfold Index.handleCSVUploadSuccess. simpl.
    destruct (reconcileSavingsLedger _ _ _ _). by split.
Qed.

(** X18. The total shown is never below zero, also when the potential
    savings applied exceed what was spent. *)
Theorem displayedTotal_never_negative (s : Index.Dashboard) :
  negative (IndexView.displayedTotal s) = false.
Proof. apply max_zero_not_negative. Qed.

(** ** From the file to the dashboard *)

Lemma filter_all (P : Expense -> bool) es :
  Forall (fun e => P e = true) es -> List.filter P es = es.
Proof.
  induction 1 as [|e es He _ IH]; [reflexivity|].
  simpl. by rewrite He, IH.
Qed.

Lemma filter_none (P : Expense -> bool) es :
  Forall (fun e => P e = false) es -> List.filter P es = [].
Proof.
  induction 1 as [|e es He _ IH]; [reflexivity|].
  simpl. by rewrite He.
Qed.

(** X19. An import only adds: after the handler's expenses reach the
    dashboard, the expenses that were there stay, in place, below the new
    ones; the MANUAL expenses are the same as before, and there is one more
    AUTO expense for each debit record of the file. *)
Theorem import_only_adds
    (newDate : string -> Date) (classifyExpense : Expense -> list Expense -> Flags)
    (Storage : Type) (recomputeAlerts : list Expense -> list HabitAlert)
    (reconcileSavingsLedger :
       string -> list Expense -> option Date -> Storage
       -> SavingsSummary * Storage)
    (DB : Type) (F : Database.Firestore DB)
    (file : CSVUpload.File) (c : CSVUpload.Component) (db db' : DB)
    (records : list Csv.BankRecord) (run : CSVUpload.Run)
    (newExpenses : list Expense)
    (userKey : string) (s : Index.Dashboard) (ls : Storage) :
  Csv.parseCSV newDate (CSVUpload.text file) = Return records ->
  CSVUpload.handleFileSelect newDate classifyExpense (Some file)
    (Some (Index.expenses s)) c db = (run, db') ->
  CSVUpload.delivered run = Some newExpenses ->
  let after :=
    (Index.handleCSVUploadSuccess Storage recomputeAlerts
       reconcileSavingsLedger userKey newExpenses s ls).1 in
  Index.expenses after = newExpenses ++ Index.expenses s /\
  List.filter isManual (Index.expenses after)
  = List.filter isManual (Index.expenses s) /\
  length (List.filter isAuto (Index.expenses after))
  = (length (List.filter Csv.isDebit records)
     + length (List.filter isAuto (Index.expenses s)))%nat.
Proof.
  intros Hparse Hrun Hdelivered after.
  destruct (handleFileSelect_delivered newDate classifyExpense
              DB F file (Some (Index.expenses s)) c db db' records run
              newExpenses Hparse Hrun Hdelivered)
    as (ids & Hlen & Hnew & _).
  destruct (withIds_shape _ ids Hlen) as (Hdesc & _ & Hsrc & _).
  cbv zeta in Hdesc, Hsrc. rewrite <- Hnew in Hdesc, Hsrc.
  rewrite !map_map in Hdesc, Hsrc. simpl in Hdesc, Hsrc.
  assert (Hauto : Forall (fun e => source e = AUTO) newExpenses).
  { apply Forall_forall. intros e He%list_elem_of_In.
    apply (in_map source) in He. rewrite Hsrc in He.
    apply in_map_iff in He as (r & Hr & _). by symmetry. }
  assert (Hexp : Index.expenses after = newExpenses ++ Index.expenses s).
  { unfold after, Index.handleCSVUploadSuccess.
    by destruct (reconcileSavingsLedger _ _ _ _). }
  rewrite Hexp, !List.filter_app. split; [reflexivity|]. split.
  - rewrite filter_none; [reflexivity|].
    eapply Forall_impl; [exact Hauto|]. intros e He. unfold isManual.
    rewrite He. reflexivity.
  - rewrite filter_all.
    + rewrite length_app. f_equal.
      rewrite <- (length_map description), Hdesc. apply length_map.
    + eapply Forall_impl; [exact Hauto|]. intros e He. unfold isAuto.
      by rewrite He.
Qed.

Lemma import_only_adds_witness :
  let newExpenses :=
    [mkExpense (Some "doc7") "Swiggy order" (Js.Finite (Qabs (-250.50))) food
               (DateOf 2024 0 6) false AUTO] in
  let after :=
    (Index.handleCSVUploadSuccess _ (fun _ => []) loggingLedger "guest"
       newExpenses sampleDashboard []).1 in
  Index.expenses after = newExpenses ++ Index.expenses sampleDashboard /\
  List.filter isManual (Index.expenses after)
  = List.filter isManual (Index.expenses sampleDashboard) /\
  length (List.filter isAuto (Index.expenses after))
  = (length
       (List.filter Csv.isDebit
          [Csv.mkBankRecord "2024-01-05" "Salary" (Js.Finite 1000) Csv.credit;
           Csv.mkBankRecord "2024-01-06" "Swiggy order"
                            (Js.Finite (Qabs (-250.50))) Csv.debit])
     + length (List.filter isAuto (Index.expenses sampleDashboard)))%nat.
Proof.
  apply (import_only_adds Csv.isoDate Classifier.classify _ (fun _ => [])
           loggingLedger Database.MemoryStore _ sampleStatement
           freshComponent sampleDb
           (Database.mkMemoryStore (Some "u1") 8
              (Database.docs sampleDb
               ++ [("doc7",
                    ("u1", mkExpense None "Swiggy order"
                                     (Js.Finite (Qabs (-250.50))) food
                                     (DateOf 2024 0 6) false AUTO))]))
           [Csv.mkBankRecord "2024-01-05" "Salary" (Js.Finite 1000) Csv.credit;
            Csv.mkBankRecord "2024-01-06" "Swiggy order"
                             (Js.Finite (Qabs (-250.50))) Csv.debit]
           (CSVUpload.mkRun
              (CSVUpload.mkComponent false CSVUpload.success "")
              [mkToast successToast "CSV uploaded successfully"]
              [mkExpense None "Swiggy order" (Js.Finite (Qabs (-250.50))) food
                         (DateOf 2024 0 6) false AUTO]
              (Some [mkExpense (Some "doc7") "Swiggy order"
                               (Js.Finite (Qabs (-250.50))) food
                               (DateOf 2024 0 6) false AUTO])
              true)).
  - vm_compute. reflexivity.
  - vm_compute. reflexivity.
  - reflexivity.
Defined.

(** ** Accounts and sessions *)

Section AuthFacts.
Import AuthContext.
Variable sha256 : string -> string.

Lemma readUsers_writeUsers users ls : readUsers (writeUsers users ls) = users.
Proof. reflexivity. Qed.

Lemma readUsers_persistSession u ls :
  readUsers (persistSession u ls) = readUsers ls.
Proof. by destruct u. Qed.

Lemma signup_free email password uuid a ls :
  readUsers ls !! Js.toLowerCase email = None ->
  inherited (Js.toLowerCase email) = false ->
  signup sha256 email password uuid a ls
  = (Return tt, mkAuth (Some (mkLocalUser uuid email)) (loading a),
     mkLocalStorage
       (Some (Some (<[Js.toLowerCase email :=
                        mkAccount email (sha256 password)]> (readUsers ls))))
       (Some (Some (mkLocalUser uuid email)))).
Proof.
  intros Hfree Hown. unfold signup. rewrite Hfree, Hown.
  rewrite bool_decide_eq_false_2; [reflexivity|]. by intros [? ?].
Qed.

Lemma login_registered email password uuid a ls rec :
  readUsers ls !! Js.toLowerCase email = Some rec ->
  passwordHash rec = sha256 password ->
  login sha256 email password uuid a ls
  = (Return tt, mkAuth (Some (mkLocalUser uuid email)) (loading a),
     persistSession (Some (mkLocalUser uuid email)) ls).
Proof.
  intros Hrec Hhash. unfold login. rewrite Hrec, Hhash.
  by rewrite String.eqb_refl.
Qed.

Lemma login_wrong_password email password uuid a ls rec :
  readUsers ls !! Js.toLowerCase email = Some rec ->
  passwordHash rec <> sha256 password ->
  login sha256 email password uuid a ls = (Throw msgInvalid, a, ls).
Proof.
  intros Hrec Hhash. unfold login. rewrite Hrec.
  by rewrite (proj2 (String.eqb_neq _ _) Hhash).
Qed.

End AuthFacts.

(** X20. Signing up and then logging in: once a sign-up has gone through,
    a login with the same email, in any letter case, and the same password
    succeeds from any state and signs that user in; a login with a password
    of another digest is refused with "Invalid credentials" and changes
    nothing. *)
Theorem signup_then_login
    (sha256 : string -> string)
    (email password uuid : string) (a : AuthContext.Auth)
    (ls : AuthContext.LocalStorage)
    (email' password' uuid' : string) (a' : AuthContext.Auth) :
  AuthContext.readUsers ls !! Js.toLowerCase email = None ->
  AuthContext.inherited (Js.toLowerCase email) = false ->
  Js.toLowerCase email' = Js.toLowerCase email ->
  let registered := AuthContext.signup sha256 email password uuid a ls in
  registered.1.1 = Return tt /\
  (let back :=
     AuthContext.login sha256 email' password uuid' a' registered.2 in
   back.1.1 = Return tt /\
   AuthContext.user back.1.2 = Some (AuthContext.mkLocalUser uuid' email') /\
   AuthContext.auth_session back.2
   = Some (Some (AuthContext.mkLocalUser uuid' email'))) /\
  (sha256 password' <> sha256 password ->
   AuthContext.login sha256 email' password' uuid' a' registered.2
   = (Throw "Invalid credentials", a', registered.2)).
Proof.
  intros Hfree Hown Hcase registered.
  unfold registered. rewrite signup_free by assumption.
  cbn [fst snd]. split; [reflexivity|].
  set (stored := AuthContext.mkLocalStorage _ _).
  assert (Hrec : AuthContext.readUsers stored !! Js.toLowerCase email'
                 = Some (AuthContext.mkAccount email (sha256 password))).
  { unfold stored. cbn [AuthContext.readUsers AuthContext.auth_users].
    rewrite Hcase. apply lookup_insert_eq. }
  split.
  - by rewrite (login_registered sha256 _ _ _ _ _ _ Hrec).
  - intros Hdigest. apply (login_wrong_password sha256 _ _ _ _ _ _ Hrec).
    simpl. congruence.
Qed.

Lemma signup_then_login_witness :
  let registered :=
    AuthContext.signup sampleDigest "Asha@Example.com" "s3cret" "u-1"
                       signedOut emptyStorage in
  registered.1.1 = Return tt /\
  (let back :=
     AuthContext.login sampleDigest "asha@example.COM" "s3cret" "u-2"
                       signedOut registered.2 in
   back.1.1 = Return tt /\
   AuthContext.user back.1.2
   = Some (AuthContext.mkLocalUser "u-2" "asha@example.COM") /\
   AuthContext.auth_session back.2
   = Some (Some (AuthContext.mkLocalUser "u-2" "asha@example.COM"))) /\
  (sampleDigest "guess" <> sampleDigest "s3cret" ->
   AuthContext.login sampleDigest "asha@example.COM" "guess" "u-2"
                     signedOut registered.2
   = (Throw "Invalid credentials", signedOut, registered.2)).
Proof.
  apply (signup_then_login sampleDigest "Asha@Example.com" "s3cret" "u-1"
           signedOut emptyStorage "asha@example.COM" "guess" "u-2" signedOut);
    reflexivity.
Defined.

(** X21. A sign-up is refused exactly when the email, lower-cased, already
    names an account or is one of the names every object answers to
    ([constructor], [__proto__]); a refused sign-up reports "Account already
    exists" and leaves the state and the storage as they were, and a
    sign-up that went through keeps every other account. *)
Theorem signup_refused_iff
    (sha256 : string -> string)
    (email password uuid : string) (a : AuthContext.Auth)
    (ls : AuthContext.LocalStorage) :
  let key := Js.toLowerCase email in
  let result := AuthContext.signup sha256 email password uuid a ls in
  (result.1.1 <> Return tt <->
   is_Some (AuthContext.readUsers ls !! key)
   \/ AuthContext.inherited key = true) /\
  (result.1.1 <> Return tt ->
   result = (Throw "Account already exists", a, ls)) /\
  (forall other, other <> key ->
     AuthContext.readUsers result.2 !! other
     = AuthContext.readUsers ls !! other).
Proof.
  intros key result.
  destruct (AuthContext.readUsers ls !! key) as [rec|] eqn:Hlook.
  - assert (Hres : result = (Throw "Account already exists", a, ls)).
    { unfold result, AuthContext.signup. fold key. rewrite Hlook.
      by rewrite bool_decide_eq_true_2 by eauto. }
    rewrite Hres. cbn [fst snd]. repeat split; try done. by left.
  - destruct (AuthContext.inherited key) eqn:Hown.
    + assert (Hres : result = (Throw "Account already exists", a, ls)).
      { unfold result, AuthContext.signup. fold key.
        by rewrite Hown, orb_true_r. }
      rewrite Hres. cbn [fst snd]. repeat split; try done. by right.
    + unfold result. rewrite signup_free by assumption. cbn [fst snd].
      repeat split; try done.
      * intros [[? ?] | ?]; discriminate.
      * intros other Hother.
        cbn [AuthContext.readUsers AuthContext.auth_users].
        by rewrite lookup_insert_ne.
Qed.

(** X22. The session outlives a reload and ends with a logout: after a
    login the effect run on mount restores the same user; after a logout it
    restores nobody, while the accounts are kept, so the same login works
    again. *)
Theorem session_round_trip
    (sha256 : string -> string)
    (email password uuid uuid' : string) (a fresh : AuthContext.Auth)
    (ls : AuthContext.LocalStorage) :
  AuthContext.user fresh = None ->
  let back := AuthContext.login sha256 email password uuid a ls in
  back.1.1 = Return tt ->
  AuthContext.restore fresh back.2
  = AuthContext.mkAuth (Some (AuthContext.mkLocalUser uuid email)) false /\
  (let out := AuthContext.logout back.1.2 back.2 in
   AuthContext.user out.1.2 = None /\
   AuthContext.restore fresh out.2 = AuthContext.mkAuth None false /\
   AuthContext.readUsers out.2 = AuthContext.readUsers ls /\
   (AuthContext.login sha256 email password uuid' out.1.2 out.2).1.1
   = Return tt).
Proof.
  intros Hfresh back. unfold back, AuthContext.login.
  destruct (AuthContext.readUsers ls !! Js.toLowerCase email) as [rec|] eqn:Hrec;
    [|discriminate].
  destruct (negb _) eqn:Hhash; [discriminate|]. intros _. simpl.
  split; [reflexivity|]. unfold AuthContext.restore. simpl. rewrite Hfresh.
  repeat split.
  unfold AuthContext.readUsers in *. simpl. rewrite Hrec, Hhash. reflexivity.
Qed.

Lemma session_round_trip_witness :
  let back :=
    AuthContext.login sampleDigest "asha@example.com" "s3cret" "u-2"
                      signedOut registeredStorage in
  AuthContext.restore signedOut back.2
  = AuthContext.mkAuth
      (Some (AuthContext.mkLocalUser "u-2" "asha@example.com")) false /\
  (let out := AuthContext.logout back.1.2 back.2 in
   AuthContext.user out.1.2 = None /\
   AuthContext.restore signedOut out.2 = AuthContext.mkAuth None false /\
   AuthContext.readUsers out.2 = AuthContext.readUsers registeredStorage /\
   (AuthContext.login sampleDigest "asha@example.com" "s3cret" "u-3"
                      out.1.2 out.2).1.1
   = Return tt).
Proof.
  apply (session_round_trip sampleDigest "asha@example.com" "s3cret"
           "u-2" "u-3" signedOut signedOut registeredStorage);
    reflexivity.
Defined.

(** X23. The key the dashboard files a user under is the key of the
    account: after a login with a non-empty email, [userKey] is the
    lower-cased email, an account stands under it, and the same person
    logging in with other letter case gets the same key; without a user the
    key is "guest". *)
Theorem userKey_is_account_key
    (sha256 : string -> string)
    (email email' password uuid uuid' : string) (a a' : AuthContext.Auth)
    (ls : AuthContext.LocalStorage) :
  email <> EmptyString ->
  Js.toLowerCase email' = Js.toLowerCase email ->
  let back := AuthContext.login sha256 email password uuid a ls in
  let back' := AuthContext.login sha256 email' password uuid' a' ls in
  back.1.1 = Return tt ->
  AuthContext.userKey (AuthContext.user back.1.2) = Js.toLowerCase email /\
  is_Some (AuthContext.readUsers ls
           !! AuthContext.userKey (AuthContext.user back.1.2)) /\
  back'.1.1 = Return tt /\
  AuthContext.userKey (AuthContext.user back'.1.2)
  = AuthContext.userKey (AuthContext.user back.1.2) /\
  AuthContext.userKey None = "guest".
Proof.
  intros Hemail Hcase back back'.
  assert (Hemail' : email' <> EmptyString).
  { intros ->. destruct email; [done | discriminate Hcase]. }
  unfold back, back', AuthContext.login. rewrite Hcase.
  destruct (AuthContext.readUsers ls !! Js.toLowerCase email) as [rec|] eqn:Hrec;
    [|discriminate].
  destruct (negb _); [discriminate|]. intros _. simpl.
  destruct email as [|c email]; [done|].
  destruct email' as [|c' email']; [done|]. simpl Js.truthy. cbv iota.
  rewrite Hcase, Hrec. by repeat split.
Qed.

Lemma userKey_is_account_key_witness :
  let back :=
    AuthContext.login sampleDigest "asha@example.com" "s3cret" "u-2"
                      signedOut registeredStorage in
  let back' :=
    AuthContext.login sampleDigest "ASHA@example.com" "s3cret" "u-3"
                      signedOut registeredStorage in
  AuthContext.userKey (AuthContext.user back.1.2)
  = Js.toLowerCase "asha@example.com" /\
  is_Some (AuthContext.readUsers registeredStorage
           !! AuthContext.userKey (AuthContext.user back.1.2)) /\
  back'.1.1 = Return tt /\
  AuthContext.userKey (AuthContext.user back'.1.2)
  = AuthContext.userKey (AuthContext.user back.1.2) /\
  AuthContext.userKey None = "guest".
Proof.
  apply (userKey_is_account_key sampleDigest "asha@example.com"
           "ASHA@example.com" "s3cret" "u-2" "u-3" signedOut signedOut
           registeredStorage).
  - discriminate.
  - reflexivity.
  - reflexivity.
Defined.

(** ** What the cards add up *)

Lemma plain_finite es : Forall plainAmount es -> Forall finiteAmount es.
Proof.
  intros Hplain. eapply Forall_impl; [exact Hplain|].
  intros e (q & Hq & _). by exists q.
Qed.

Lemma sum_filter_le (P : Expense -> bool) es :
  Forall plainAmount es ->
  (0 <= foldl (fun s e => s + toQ (amount e)) 0 (List.filter P es))%Q /\
  (foldl (fun s e => s + toQ (amount e)) 0 (List.filter P es)
   <= foldl (fun s e => s + toQ (amount e)) 0 es)%Q.
Proof.
  induction 1 as [|e es (q & Hq & Hpos) _ [IH0 IH]]; simpl; [lra|].
  rewrite (foldl_Qplus_shift es (0 + _)%Q). rewrite Hq. simpl.
  destruct (P e); simpl; [|lra].
  rewrite (foldl_Qplus_shift (List.filter P es) (0 + _)%Q).
  rewrite Hq. simpl. lra.
Qed.

(** X24. With amounts that are finite and not below zero, the total spent
    and the impulse spending shown are numbers, and the impulse spending is
    not below zero and not above the total spent. *)
Theorem impulseSpending_within_total (s : Index.Dashboard) :
  Forall plainAmount (Index.expenses s) ->
  Js.isNaN (IndexView.totalSpent s) = false /\
  Js.isNaN (IndexView.impulseSpending s) = false /\
  negative (IndexView.impulseSpending s) = false /\
  Js.gt (IndexView.impulseSpending s) (IndexView.totalSpent s) = false.
Proof.
  intros Hplain. pose proof (plain_finite _ Hplain) as Hfinite.
  unfold IndexView.totalSpent, IndexView.impulseSpending, Js.ofZ.
  change (inject_Z 0) with 0%Q.
  rewrite (foldl_add_finite _ _ Hfinite).
  rewrite (foldl_add_finite _ _ (filter_finite isImpulse _ Hfinite)).
  destruct (sum_filter_le isImpulse _ Hplain) as [Hpos Hle].
  repeat split.
  - unfold negative, Js.lt, Js.ofZ. change (inject_Z 0) with 0%Q.
    match goal with
    | |- match (?x ?= 0)%Q with _ => _ end = false =>
        destruct (x ?= 0)%Q eqn:Hcmp; try reflexivity;
        apply Qlt_alt in Hcmp; lra
    end.
  - unfold Js.gt, Js.lt.
    match goal with
    | |- match (?x ?= ?y)%Q with _ => _ end = false =>
        destruct (x ?= y)%Q eqn:Hcmp; try reflexivity;
        apply Qlt_alt in Hcmp; lra
    end.
Qed.

Lemma impulseSpending_within_total_witness :
  Js.isNaN (IndexView.totalSpent sampleDashboard) = false /\
  Js.isNaN (IndexView.impulseSpending sampleDashboard) = false /\
  negative (IndexView.impulseSpending sampleDashboard) = false /\
  Js.gt (IndexView.impulseSpending sampleDashboard)
        (IndexView.totalSpent sampleDashboard) = false.
Proof.
  apply (impulseSpending_within_total sampleDashboard).
  repeat constructor; eexists; (split; [reflexivity|]); vm_compute;
    discriminate.
Defined.

(** ** Dismissed alerts and the cap *)

(** X25. A dismissal reaches the cap: on the next add the cap is computed
    from the bad alerts without the dismissed one, so the check decides as
    it would if [computeCategoryCap] never saw that alert. *)
Theorem enforceCap_after_dismissal
    (computeCategoryCap :
       list Expense -> list HabitAlert -> Category -> Date
       -> option Js.number)
    (id0 : string) (now : Date) (request : Index.NewExpense)
    (s : Index.Dashboard) :
  let others :=
    List.filter (fun a => negb (String.eqb (Alert.id a) id0)) in
  Index.badAlerts (IndexView.handleDismissAlert id0 s)
  = others (Index.badAlerts s) /\
  Index.enforceCap computeCategoryCap now request
                   (IndexView.handleDismissAlert id0 s)
  = Index.enforceCap
      (fun es al => computeCategoryCap es (others al)) now request s.
Proof.
  intros others.
  assert (Hbad : Index.badAlerts (IndexView.handleDismissAlert id0 s)
                 = others (Index.badAlerts s)).
  { unfold Index.badAlerts, IndexView.handleDismissAlert, others. simpl.
    induction (Index.alerts s) as [|a al IH]; [reflexivity|].
    cbn [List.filter].
    destruct (String.eqb (Alert.id a) id0) eqn:Hid,
             (bool_decide (Alert.severity a = bad)) eqn:Hsev;
      cbn [negb List.filter]; rewrite ?Hid, ?Hsev; cbn [negb];
      by rewrite IH. }
  split; [exact Hbad|].
  unfold Index.enforceCap. rewrite Hbad. reflexivity.
Qed.

(** ** Amounts that are not numbers *)

(** X26. The cap check does not catch an amount that is not a number:
    under an active cap with room left, a request whose amount is [NaN] is
    let through as it is, and an expense the handler then adds is stored
    with that amount. *)
Theorem enforceCap_passes_NaN
    (Storage : Type) (classifyExpense : Expense -> list Expense -> Flags)
    (computeCategoryCap :
       list Expense -> list HabitAlert -> Category -> Date
       -> option Js.number)
    (recomputeAlerts : list Expense -> list HabitAlert)
    (reconcileSavingsLedger :
       string -> list Expense -> option Date -> Storage
       -> SavingsSummary * Storage)
    (DB : Type) (F : Database.Firestore DB)
    (userKey : string) (now : Date) (request : Index.NewExpense)
    (s : Index.Dashboard) (ls : Storage) (db : DB) (cap : Js.number) :
  Index.applySavings s = true ->
  computeCategoryCap (Index.expenses s) (Index.badAlerts s)
                     (Index.Form.category request) now = Some cap ->
  Js.le (Index.remainingUnder cap now (Index.Form.category request)
                              (Index.expenses s)) (Js.ofZ 0) = false ->
  Index.Form.amount request = Js.NaN ->
  Index.enforceCap computeCategoryCap now request s
  = Index.Proceed Js.NaN [] /\
  let after :=
    Index.handleAddExpense Storage classifyExpense computeCategoryCap
      recomputeAlerts reconcileSavingsLedger userKey now request s ls db in
  (Index.expenses after.1.1 = Index.expenses s \/
   exists e, Index.expenses after.1.1 = e :: Index.expenses s /\
             amount e = Js.NaN).
Proof.
  intros Hon Hcap Hroom Hnan.
  assert (Hverdict : Index.enforceCap computeCategoryCap now request s
                     = Index.Proceed Js.NaN []).
  { unfold Index.enforceCap. rewrite Hon, Hcap, Hroom, Hnan. unfold Js.gt.
    by destruct (Index.remainingUnder _ _ _ _) as [|[]|]. }
  split; [exact Hverdict|]. intros after.
  destruct (handleAddExpense_cases Storage classifyExpense computeCategoryCap
              recomputeAlerts reconcileSavingsLedger userKey now request
              s ls db)
    as [(Hsame & _) | (finalAmount & notice & id0 & Hc & _ & Hexp & _)].
  - by left.
  - right. rewrite Hverdict in Hc. injection Hc as <- <-.
    eexists. split; [exact Hexp | reflexivity].
Qed.

Lemma enforceCap_passes_NaN_witness :
  Index.enforceCap foodCap (january 20)
    (Index.Form.mkNewExpense "Lunch" Js.NaN food) sampleDashboard
  = Index.Proceed Js.NaN [] /\
  let after :=
    Index.handleAddExpense _ Classifier.classify foodCap (fun _ => [])
      loggingLedger "guest" (january 20)
      (Index.Form.mkNewExpense "Lunch" Js.NaN food)
      sampleDashboard [] sampleDb in
  (Index.expenses after.1.1 = Index.expenses sampleDashboard \/
   exists e, Index.expenses after.1.1 = e :: Index.expenses sampleDashboard
             /\ amount e = Js.NaN).
Proof.
  apply (enforceCap_passes_NaN _ Classifier.classify foodCap (fun _ => [])
           loggingLedger Database.MemoryStore _ "guest" (january 20)
           (Index.Form.mkNewExpense "Lunch" Js.NaN food) sampleDashboard
           [] sampleDb (Js.ofZ 500)); reflexivity.
Defined.
